(** * Fireworks inference adapter: request shaping and call dispatch

    Shallow embedding of
    [llama_stack/providers/remote/inference/fireworks/fireworks.py].

    Python dictionaries are finite maps over strings, exceptions are an
    explicit result type, provider calls are recorded in a trace that is
    threaded through a small state-and-error monad, and an async generator
    is a suspended state that is advanced one [__anext__] at a time. *)

From Stdlib Require Import ZArith QArith String Ascii.
From stdpp Require Import base option gmap strings list.

Set Warnings "-register-all".
Open Scope string_scope.

(** ** Python values, exceptions *)

Inductive value : Type :=
  | VNone
  | VBool (b : bool)
  | VInt (z : Z)
  | VFloat (q : Q)
  | VStr (s : string)
  | VList (l : list value)
  | VDict (d : gmap string value).

Abbreviation dict := (gmap string value).

Inductive exn : Type :=
  | ValueError (msg : string)
  | AssertionError (msg : string)
  | AttributeError (attr : string)
  | TypeError (msg : string)
  | NotImplementedError
  | ExternalError (msg : string).

Inductive result (A : Type) : Type :=
  | Ok (a : A)
  | Raise (e : exn).
Arguments Ok {A} a.
Arguments Raise {A} e.

#[global] Instance result_ret : MRet result := @Ok.
#[global] Instance result_bind : MBind result := fun A B f m =>
  match m with
  | Ok a => f a
  | Raise e => Raise e
  end.

(** [[await f(m) for m in ms]]: left to right, stops at the first raise. *)
Fixpoint result_mapM {A B : Type} (f : A -> result B) (l : list A) : result (list B) :=
  match l with
  | [] => Ok []
  | a :: l' => b ← f a; bs ← result_mapM f l'; Ok (b :: bs)
  end.

(** ** Python string and dictionary primitives used by the adapter *)

(** [s.startswith(p)] *)
Fixpoint startswith (s p : string) {struct p} : bool :=
  match p, s with
  | EmptyString, _ => true
  | String a p', String b s' => if Ascii.eqb a b then startswith s' p' else false
  | String _ _, EmptyString => false
  end.

(** [s[n:]] *)
Fixpoint slice_from (n : nat) (s : string) : string :=
  match n, s with
  | O, _ => s
  | S n', String _ s' => slice_from n' s'
  | S _, EmptyString => EmptyString
  end.

(** [k in d] *)
Definition contains (d : dict) (k : string) : bool := bool_decide (is_Some (d !! k)).

(** [d.setdefault(k, v)], as the dictionary it leaves behind. *)
Definition setdefault (k : string) (v : value) (d : dict) : dict :=
  match d !! k with
  | Some _ => d
  | None => <[k := v]> d
  end.

(** [{**d, **new}]: keys of [new] win. *)
Definition update (d new : dict) : dict := new ∪ d.

(** Truthiness of an [Optional[bool]] and of an [Optional[str]]. *)
Definition truthy_bool (b : option bool) : bool :=
  match b with Some true => true | _ => false end.

Definition truthy_str (s : option string) : bool :=
  match s with
  | Some (String _ _) => true
  | _ => false
  end.

Definition value_of_optional_bool (b : option bool) : value :=
  match b with Some b => VBool b | None => VNone end.

(** The double-quote character, for messages that contain it. *)
Definition dquote : string := String (ascii_of_nat 34) EmptyString.

(** ** Data model *)

(** Modelled from the spec: the content types come from the model package,
    outside this file. A content is one segment or a list of segments, and a
    segment is text or non-text media. *)
Inductive ContentItem (Image : Type) : Type :=
  | TextItem (text : string)
  | ImageMedia (image : Image).
Arguments TextItem {Image} text.
Arguments ImageMedia {Image} image.

Inductive InterleavedTextMedia (Image : Type) : Type :=
  | Single (c : ContentItem Image)
  | Segments (cs : list (ContentItem Image)).
Arguments Single {Image} c.
Arguments Segments {Image} cs.

Record Message (Image : Type) : Type := {
  role : string;
  content : InterleavedTextMedia Image
}.
Arguments role {Image} m.
Arguments content {Image} m.

(** A response format as the option mapper reads it: a [type] tag and the
    attributes [json_schema] and [bnf], either of which may be missing on
    the object at hand. *)
Record ResponseFormat : Type := {
  type : string;
  json_schema : option value;
  bnf : option value
}.

Definition JsonSchemaResponseFormat (schema : value) : ResponseFormat :=
  {| type := "json_schema"; json_schema := Some schema; bnf := None |}.

Definition GrammarResponseFormat (g : value) : ResponseFormat :=
  {| type := "grammar"; json_schema := None; bnf := Some g |}.

Record Model : Type := { provider_resource_id : string }.

Record ProviderData : Type := { fireworks_api_key : option string }.

Record FireworksImplConfig : Type := { api_key : option string }.

(** The provider client handle built by [_get_client]. *)
Record Fireworks : Type := { client_api_key : string }.

(** The three provider entry points the adapter calls. *)
Inductive Endpoint : Type :=
  | chat_completions_acreate
  | completion_acreate
  | completion_create.

Inductive Event : Type :=
  | Call (client : Fireworks) (ep : Endpoint) (params : dict).

Inductive Kind : Type := KCompletion | KChat.

(** What a streaming call of the provider hands back: an object that a
    synchronous [for] can iterate, each pull giving the next chunk or
    raising, or an object that it cannot iterate, such as an async
    generator. *)
Inductive StreamHandle (Raw : Type) : Type :=
  | Iterable (items : list (result Raw))
  | NotIterable.
Arguments Iterable {Raw} items.
Arguments NotIterable {Raw}.

(** ** Opaque types

    Types declared in other modules, whose values the adapter only passes
    along. [Raw] is what the provider returns (a response or one chunk of
    a stream), [Norm] a normalised response or event. *)
Class Types : Type := {
  SamplingParams : Type;
  LogProbConfig : Type;
  ToolDefinition : Type;
  ToolChoice : Type;
  ToolPromptFormat : Type;
  Image : Type;
  Raw : Type;
  Norm : Type;
  NormState : Type
}.

Section Requests.
Context `{Types}.

Record CompletionRequest : Type := {
  c_model : string;
  c_content : InterleavedTextMedia Image;
  c_sampling_params : option SamplingParams;
  c_response_format : option ResponseFormat;
  c_stream : option bool;
  c_logprobs : option LogProbConfig
}.

Record ChatCompletionRequest : Type := {
  model : string;
  messages : list (Message Image);
  sampling_params : option SamplingParams;
  tools : list ToolDefinition;
  tool_choice : option ToolChoice;
  tool_prompt_format : option ToolPromptFormat;
  response_format : option ResponseFormat;
  stream : option bool;
  logprobs : option LogProbConfig
}.

(** [Union[ChatCompletionRequest, CompletionRequest]] *)
Inductive Request : Type :=
  | Completion (r : CompletionRequest)
  | Chat (r : ChatCompletionRequest).

Definition request_model (request : Request) : string :=
  match request with Completion r => c_model r | Chat r => model r end.

Definition request_stream (request : Request) : option bool :=
  match request with Completion r => c_stream r | Chat r => stream r end.

Definition request_sampling_params (request : Request) : option SamplingParams :=
  match request with
  | Completion r => c_sampling_params r
  | Chat r => sampling_params r
  end.

Definition request_response_format (request : Request) : option ResponseFormat :=
  match request with
  | Completion r => c_response_format r
  | Chat r => response_format r
  end.

(** A segment is media when it is not text; a content has media when one
    of its segments is. *)
Definition is_media (c : ContentItem Image) : bool :=
  match c with TextItem _ => false | ImageMedia _ => true end.

Definition content_has_media (c : InterleavedTextMedia Image) : bool :=
  match c with
  | Single c => is_media c
  | Segments cs => existsb is_media cs
  end.

(** Modelled from the spec: [request_has_media] lives in the prompt
    adapter module, outside this file. It tells whether any content
    segment of the request is non-text media. *)
Definition request_has_media (request : Request) : bool :=
  match request with
  | Completion r => content_has_media (c_content r)
  | Chat r => existsb (fun m => content_has_media (content m)) (messages r)
  end.
End Requests.

(** ** Collaborators

    The functions the adapter imports from other modules: the
    sampling-option helper, the prompt renderers (already applied to the
    adapter's formatter), the model registry, the response normalisers and
    the provider itself. The renderers and the message converter may
    raise. A stream normaliser is a machine that first emits its start
    events, and from then on pulls one raw chunk, or the end of the stream,
    and emits the events for it. A streaming call of the provider returns a
    handle whose chunks are pulled one at a time. *)
Class Collaborators `{Types} : Type := {
  SamplingParams_default : SamplingParams;
  get_sampling_options : option SamplingParams -> dict;
  get_llama_model : string -> option string;
  model_store_get_model : string -> result Model;
  convert_message_to_dict : Message Image -> result value;
  completion_request_to_prompt : CompletionRequest -> result string;
  chat_completion_request_to_prompt :
    ChatCompletionRequest -> option string -> result string;
  process_completion_response : Raw -> Norm;
  process_chat_completion_response : Raw -> Norm;
  norm_start : Kind -> list Norm;
  norm_init : Kind -> NormState;
  norm_chunk : Kind -> NormState -> Raw -> list Norm * NormState;
  norm_end : Kind -> NormState -> list Norm;
  provider_response : Endpoint -> Fireworks -> dict -> result Raw;
  provider_stream : Endpoint -> Fireworks -> dict -> result (StreamHandle Raw)
}.

(** ** The adapter *)

Record FireworksInferenceAdapter : Type := {
  config : FireworksImplConfig;
  (** what [get_request_provider_data()] returns for the current request *)
  request_provider_data : option ProviderData
}.

Definition BOS : string := "<|begin_of_text|>".

Definition missing_key_message : string :=
  "Pass Fireworks API Key in the header X-LlamaStack-ProviderData as { "
  ++ dquote ++ "fireworks_api_key" ++ dquote ++ ": <your api key>}".

Definition _get_client (self : FireworksInferenceAdapter) : result Fireworks :=
  match api_key (config self) with
  | Some k => Ok {| client_api_key := k |}
  | None =>
      match request_provider_data self with
      | None => Raise (ValueError missing_key_message)
      | Some provider_data =>
          if negb (truthy_str (fireworks_api_key provider_data))
          then Raise (ValueError missing_key_message)
          else Ok {| client_api_key := default "" (fireworks_api_key provider_data) |}
      end
  end.

Section Builder.
Context `{Collaborators}.

Definition _build_options (sampling_params : option SamplingParams)
    (fmt : option ResponseFormat) : result dict :=
  let options := get_sampling_options sampling_params in
  let options := setdefault "max_tokens" (VInt 512) options in
  match fmt with
  | Some fmt =>
      if String.eqb (type fmt) "json_schema" then
        match json_schema fmt with
        | Some schema =>
            Ok (<["response_format" :=
                   VDict {[ "type" := VStr "json_object"; "schema" := schema ]}]>
                  options)
        | None => Raise (AttributeError "json_schema")
        end
      else if String.eqb (type fmt) "grammar" then
        match bnf fmt with
        | Some g =>
            Ok (<["response_format" :=
                   VDict {[ "type" := VStr "grammar"; "grammar" := g ]}]>
                  options)
        | None => Raise (AttributeError "bnf")
        end
      else Raise (ValueError ("Unknown response format " ++ type fmt))
  | None => Ok options
  end.

(** The first half of [_get_params]: the prompt or the messages. *)
Definition input_dict_of (request : Request) : result dict :=
  let media_present := request_has_media request in
  match request with
  | Chat r =>
      if media_present then
        ms ← result_mapM convert_message_to_dict (messages r);
        Ok {[ "messages" := VList ms ]}
      else
        p ← chat_completion_request_to_prompt r (get_llama_model (model r));
        Ok {[ "prompt" := VStr p ]}
  | Completion r =>
      if media_present then
        Raise (AssertionError "Fireworks does not support media for Completion requests")
      else
        p ← completion_request_to_prompt r;
        Ok {[ "prompt" := VStr p ]}
  end.

(** Fireworks always prepends with BOS. *)
Definition strip_bos (input_dict : dict) : dict :=
  match input_dict !! "prompt" with
  | Some (VStr p) =>
      if startswith p BOS
      then <["prompt" := VStr (slice_from (String.length BOS) p)]> input_dict
      else input_dict
  | _ => input_dict
  end.

Definition _get_params (request : Request) : result dict :=
  input_dict ← input_dict_of request;
  let input_dict := strip_bos input_dict in
  options ← _build_options (request_sampling_params request)
                           (request_response_format request);
  Ok (update
        (<["stream" := value_of_optional_bool (request_stream request)]>
           (update {[ "model" := VStr (request_model request) ]} input_dict))
        options).
End Builder.

(** ** Effects: provider calls recorded in a trace

    A computation takes the trace of provider calls made so far and returns
    a result and the extended trace. A raise keeps the calls made before it. *)

Definition IO (A : Type) : Type := list Event -> result A * list Event.

#[global] Instance IO_ret : MRet IO := fun A a tr => (Ok a, tr).
#[global] Instance IO_bind : MBind IO := fun A B f m tr =>
  match m tr with
  | (Ok a, tr') => f a tr'
  | (Raise e, tr') => (Raise e, tr')
  end.

Definition lift {A : Type} (r : result A) : IO A := fun tr => (r, tr).

Definition raise {A : Type} (e : exn) : IO A := lift (Raise e).

(** One call attempt: the call is recorded, then the provider answers. *)
Definition call {A : Type} (answer : Endpoint -> Fireworks -> dict -> result A)
    (ep : Endpoint) (client : Fireworks) (params : dict) : IO A :=
  fun tr => (answer ep client params, (tr ++ [Call client ep params])%list).

(** ** Async generators

    Calling an async generator function runs none of its body: the value
    returned is the suspended generator. [StreamCompletion] and [StreamChat]
    are the two generators before their first [__anext__]. [Started] is a
    generator whose body has built the payload and is iterating the
    normaliser, which still has [pending] start events to hand over and has
    not pulled from the provider stream yet: the stream is not open.
    [Draining] is a generator suspended at its [yield] with the provider
    stream open, [items] being what the pulls to come will give, chunk or
    raise, and [pending] the events the normaliser has emitted and not yet
    yielded; [Flushing] is the same after the provider stream has ended. *)

Section Dispatcher.
Context `{Collaborators}.

Inductive AsyncGen : Type :=
  | StreamCompletion (request : CompletionRequest)
  | StreamChat (request : ChatCompletionRequest)
  | Started (k : Kind) (params : dict) (pending : list Norm)
  | Draining (k : Kind) (items : list (result Raw)) (ns : NormState)
             (pending : list Norm)
  | Flushing (pending : list Norm)
  | Finished.

Definition _nonstream_completion (self : FireworksInferenceAdapter)
    (request : CompletionRequest) : IO Norm :=
  params ← lift (_get_params (Completion request));
  client ← lift (_get_client self);
  r ← call provider_response completion_acreate client params;
  mret (process_completion_response r).

Definition _stream_completion (request : CompletionRequest) : AsyncGen :=
  StreamCompletion request.

Definition _nonstream_chat_completion (self : FireworksInferenceAdapter)
    (request : ChatCompletionRequest) : IO Norm :=
  params ← lift (_get_params (Chat request));
  r ← (if contains params "messages" then
         client ← lift (_get_client self);
         call provider_response chat_completions_acreate client params
       else
         client ← lift (_get_client self);
         call provider_response completion_acreate client params);
  mret (process_chat_completion_response r).

Definition _stream_chat_completion (request : ChatCompletionRequest) : AsyncGen :=
  StreamChat request.

(** The body of [_to_async_generator] up to its [for] loop: the provider
    stream is opened when the normaliser first pulls. *)
Definition open_stream (self : FireworksInferenceAdapter) (k : Kind)
    (params : dict) : IO (StreamHandle Raw) :=
  match k with
  | KCompletion =>
      client ← lift (_get_client self);
      call provider_stream completion_create client params
  | KChat =>
      if contains params "messages" then
        client ← lift (_get_client self);
        call provider_stream chat_completions_acreate client params
      else
        client ← lift (_get_client self);
        call provider_stream completion_create client params
  end.

(** [for chunk in stream]: what the pulls of the loop will give, when the
    handle can be iterated. *)
Definition iterate (stream : StreamHandle Raw) : result (list (result Raw)) :=
  match stream with
  | Iterable items => Ok items
  | NotIterable => Raise (TypeError "object is not iterable")
  end.

(** The normaliser pulls chunks until it has an event to yield; a pull that
    raises ends the iteration with that error. *)
Fixpoint pump (k : Kind) (ns : NormState) (items : list (result Raw))
    : result (option (Norm * AsyncGen)) :=
  match items with
  | [] =>
      match norm_end k ns with
      | [] => Ok None
      | ev :: pending => Ok (Some (ev, Flushing pending))
      end
  | Ok chunk :: items' =>
      match norm_chunk k ns chunk with
      | ([], ns') => pump k ns' items'
      | (ev :: pending, ns') => Ok (Some (ev, Draining k items' ns' pending))
      end
  | Raise e :: _ => Raise e
  end.

(** The normaliser before its first pull: it hands over its start events
    one by one, and then pulls, which opens the provider stream. *)
Definition resume (self : FireworksInferenceAdapter) (k : Kind) (params : dict)
    (pending : list Norm) : IO (option (Norm * AsyncGen)) :=
  match pending with
  | ev :: pending' => mret (Some (ev, Started k params pending'))
  | [] =>
      stream ← open_stream self k params;
      items ← lift (iterate stream);
      lift (pump k (norm_init k) items)
  end.

(** One [__anext__]: [Some (ev, g')] is a yield that leaves the generator in
    state [g'], [None] is the end of the iteration, and a raise closes the
    generator. *)
Definition anext (self : FireworksInferenceAdapter) (g : AsyncGen)
    : IO (option (Norm * AsyncGen)) :=
  match g with
  | StreamCompletion request =>
      params ← lift (_get_params (Completion request));
      resume self KCompletion params (norm_start KCompletion)
  | StreamChat request =>
      params ← lift (_get_params (Chat request));
      resume self KChat params (norm_start KChat)
  | Started k params pending => resume self k params pending
  | Draining k items ns (ev :: pending) =>
      mret (Some (ev, Draining k items ns pending))
  | Draining k items ns [] => lift (pump k ns items)
  | Flushing (ev :: pending) => mret (Some (ev, Flushing pending))
  | Flushing [] => mret None
  | Finished => mret None
  end.

(** [async for ev in g], bounded by [fuel] iterations. *)
Fixpoint collect (fuel : nat) (self : FireworksInferenceAdapter) (g : AsyncGen)
    : IO (list Norm) :=
  match fuel with
  | O => mret []
  | S fuel' =>
      step ← anext self g;
      match step with
      | None => mret []
      | Some (ev, g') => evs ← collect fuel' self g'; mret (ev :: evs)
      end
  end.

(** ** Public entry points *)

Definition completion (self : FireworksInferenceAdapter) (model_id : string)
    (content : InterleavedTextMedia Image)
    (sampling_params : option SamplingParams)
    (response_format : option ResponseFormat)
    (stream : option bool) (logprobs : option LogProbConfig)
    : IO (Norm + AsyncGen) :=
  model ← lift (model_store_get_model model_id);
  let request :=
    {| c_model := provider_resource_id model;
       c_content := content;
       c_sampling_params := sampling_params;
       c_response_format := response_format;
       c_stream := stream;
       c_logprobs := logprobs |} in
  if truthy_bool stream then mret (inr (_stream_completion request))
  else r ← _nonstream_completion self request; mret (inl r).

Definition chat_completion (self : FireworksInferenceAdapter) (model_id : string)
    (messages : list (Message Image))
    (sampling_params : option SamplingParams)
    (tools : option (list ToolDefinition))
    (tool_choice : option ToolChoice)
    (tool_prompt_format : option ToolPromptFormat)
    (response_format : option ResponseFormat)
    (stream : option bool) (logprobs : option LogProbConfig)
    : IO (Norm + AsyncGen) :=
  model ← lift (model_store_get_model model_id);
  let request :=
    {| model := provider_resource_id model;
       messages := messages;
       sampling_params := sampling_params;
       tools := default [] tools;
       tool_choice := tool_choice;
       tool_prompt_format := tool_prompt_format;
       response_format := response_format;
       stream := stream;
       logprobs := logprobs |} in
  if truthy_bool stream then mret (inr (_stream_chat_completion request))
  else r ← _nonstream_chat_completion self request; mret (inl r).

Definition embeddings (self : FireworksInferenceAdapter) (model_id : string)
    (contents : list (InterleavedTextMedia Image)) : IO Norm :=
  raise NotImplementedError.

End Dispatcher.

(** ** Reference collaborators

    A concrete set of collaborators, used to run the adapter on concrete
    requests: a sampling helper that emits the settings the caller
    specified, renderers that never raise, normalisers without start events
    and a provider that delivers two chunks. *)

Module Reference.

(** Modelled from the spec: the sampling parameters are declared outside
    this file. They are a normalised sampling configuration (temperature,
    top-p, max tokens), each setting present only when the caller
    specified it. *)
Record SpecSamplingParams : Type := {
  temperature : option Q;
  top_p : option Q;
  max_tokens : option Z
}.

#[export] Instance types : Types := {|
  SamplingParams := SpecSamplingParams;
  LogProbConfig := unit;
  ToolDefinition := string;
  ToolChoice := string;
  ToolPromptFormat := string;
  Image := string;
  Raw := string;
  Norm := string;
  NormState := unit
|}.

Definition set_option (k : string) (v : option value) (d : dict) : dict :=
  match v with
  | Some v => <[k := v]> d
  | None => d
  end.

(** Modelled from the spec: [get_sampling_options] lives in the
    OpenAI-compatibility helper module, outside this file. It converts the
    normalised sampling parameters into provider options, one option per
    setting the caller specified. *)
Definition spec_get_sampling_options (params : option SpecSamplingParams) : dict :=
  match params with
  | None => ∅
  | Some p =>
      set_option "temperature" (VFloat <$> temperature p)
        (set_option "top_p" (VFloat <$> top_p p)
           (set_option "max_tokens" (VInt <$> max_tokens p) ∅))
  end.

(** Modelled from the spec: the default sampling parameters specify
    nothing. *)
Definition spec_default : SpecSamplingParams :=
  {| temperature := None; top_p := None; max_tokens := None |}.

Definition item_text (c : ContentItem string) : string :=
  match c with TextItem t => t | ImageMedia _ => "" end.

Definition content_text (c : InterleavedTextMedia string) : string :=
  match c with
  | Single c => item_text c
  | Segments cs => String.concat "" (map item_text cs)
  end.

(** Modelled from the spec: [completion_request_to_prompt] lives in the
    prompt adapter module, outside this file. A completion request is
    rendered to a single flattened prompt string directly from its
    content. *)
Definition spec_completion_request_to_prompt (r : CompletionRequest) : string :=
  content_text (c_content r).

(** Modelled from the spec: [chat_completion_request_to_prompt] lives in
    the prompt adapter module, outside this file. A chat request is
    rendered by applying a chat template to the message sequence; the
    template here opens with the beginning-of-sequence marker and writes
    each message as its role and its text. *)
Definition spec_chat_completion_request_to_prompt (r : ChatCompletionRequest)
    (llama_model : option string) : string :=
  BOS ++ String.concat ""
           (map (fun m => "<" ++ role m ++ ">" ++ content_text (content m)) (messages r)).

Definition item_dict (c : ContentItem string) : value :=
  match c with
  | TextItem t => VDict {[ "type" := VStr "text"; "text" := VStr t ]}
  | ImageMedia url => VDict {[ "type" := VStr "image_url"; "image_url" := VStr url ]}
  end.

Definition spec_convert_message_to_dict (m : Message string) : result value :=
  Ok (VDict {[ "role" := VStr (role m);
               "content" := VList match content m with
                                  | Single c => [item_dict c]
                                  | Segments cs => map item_dict cs
                                  end ]}).

(** The alias table of the adapter: provider resource id and the name of
    the core model it stands for. *)
Definition model_aliases : list (string * string) :=
  [ ("fireworks/llama-v3p1-8b-instruct", "llama3_1_8b_instruct");
    ("fireworks/llama-v3p1-70b-instruct", "llama3_1_70b_instruct");
    ("fireworks/llama-v3p1-405b-instruct", "llama3_1_405b_instruct");
    ("fireworks/llama-v3p2-1b-instruct", "llama3_2_3b_instruct");
    ("fireworks/llama-v3p2-3b-instruct", "llama3_2_11b_vision_instruct");
    ("fireworks/llama-v3p2-11b-vision-instruct", "llama3_2_11b_vision_instruct");
    ("fireworks/llama-v3p2-90b-vision-instruct", "llama3_2_90b_vision_instruct");
    ("fireworks/llama-guard-3-8b", "llama_guard_3_8b");
    ("fireworks/llama-guard-3-11b-vision", "llama_guard_3_11b_vision") ].

(** Modelled from the spec: the model resolver lives outside this file. It
    maps a model identifier of the alias table to its provider resource id
    and fails on an identifier the table does not have. *)
Definition spec_get_model (model_id : string) : result Model :=
  match List.find (fun a => String.eqb model_id (fst a) || String.eqb model_id (snd a))
                  model_aliases with
  | Some a => Ok {| provider_resource_id := fst a |}
  | None => Raise (ValueError ("Model " ++ model_id ++ " not found"))
  end.

Definition spec_get_llama_model (provider_model_id : string) : option string :=
  snd <$> List.find (fun a => String.eqb provider_model_id (fst a)) model_aliases.

#[export] Instance collaborators : Collaborators := {|
  SamplingParams_default := spec_default;
  get_sampling_options := spec_get_sampling_options;
  get_llama_model := spec_get_llama_model;
  model_store_get_model := spec_get_model;
  convert_message_to_dict := spec_convert_message_to_dict;
  completion_request_to_prompt := fun r => Ok (spec_completion_request_to_prompt r);
  chat_completion_request_to_prompt :=
    fun r m => Ok (spec_chat_completion_request_to_prompt r m);
  process_completion_response := fun r => r;
  process_chat_completion_response := fun r => r;
  norm_start := fun _ => [];
  norm_init := fun _ => tt;
  norm_chunk := fun _ ns chunk => ([chunk], ns);
  norm_end := fun _ _ => [];
  provider_response := fun _ _ _ => Ok "response";
  provider_stream := fun _ _ _ => Ok (Iterable [Ok "chunk 1"; Ok "chunk 2"])
|}.

Definition adapter_with_key : FireworksInferenceAdapter :=
  {| config := {| api_key := Some "static-key" |}; request_provider_data := None |}.

Definition adapter_with_header : FireworksInferenceAdapter :=
  {| config := {| api_key := None |};
     request_provider_data := Some {| fireworks_api_key := Some "header-key" |} |}.

Definition adapter_without_key : FireworksInferenceAdapter :=
  {| config := {| api_key := None |}; request_provider_data := None |}.

Definition hello : CompletionRequest :=
  {| c_model := "fireworks/llama-v3p1-8b-instruct";
     c_content := Single (TextItem "Hello");
     c_sampling_params := Some spec_default;
     c_response_format := None;
     c_stream := Some false;
     c_logprobs := None |}.

Definition chat_of (ms : list (Message string)) (stream : bool) : ChatCompletionRequest :=
  {| model := "fireworks/llama-v3p2-11b-vision-instruct";
     messages := ms;
     sampling_params := Some spec_default;
     tools := [];
     tool_choice := None;
     tool_prompt_format := None;
     response_format := None;
     stream := Some stream;
     logprobs := None |}.

Definition text_message : Message string :=
  {| role := "user"; content := Single (TextItem "Hi") |}.

Definition image_message : Message string :=
  {| role := "user";
     content := Segments [TextItem "What is this?"; ImageMedia "http://example.org/cat.png"] |}.

End Reference.

(** ** Collaborators that fail

    The reference collaborators with a chat normaliser that opens with a
    start event, a message converter that cannot fetch media and a provider
    that refuses every call of the statically configured client and breaks
    off the stream of any other client after one chunk. *)

Module Offline.
Import Reference.

Definition convert_without_media (m : Message string) : result value :=
  if content_has_media (content m)
  then Raise (ExternalError ("cannot fetch the media of a " ++ role m ++ " message"))
  else spec_convert_message_to_dict m.

Definition broken_stream (client : Fireworks) : result (StreamHandle string) :=
  if String.eqb (client_api_key client) "static-key"
  then Raise (ExternalError "503")
  else Ok (Iterable [Ok "chunk 1"; Raise (ExternalError "connection reset")]).

Definition collaborators : Collaborators := {|
  SamplingParams_default := spec_default;
  get_sampling_options := spec_get_sampling_options;
  get_llama_model := spec_get_llama_model;
  model_store_get_model := spec_get_model;
  convert_message_to_dict := convert_without_media;
  completion_request_to_prompt := fun r => Ok (spec_completion_request_to_prompt r);
  chat_completion_request_to_prompt :=
    fun r m => Ok (spec_chat_completion_request_to_prompt r m);
  process_completion_response := fun r => r;
  process_chat_completion_response := fun r => r;
  norm_start := fun k => match k with KChat => ["start"] | KCompletion => [] end;
  norm_init := fun _ => tt;
  norm_chunk := fun _ ns chunk => ([chunk], ns);
  norm_end := fun _ _ => [];
  provider_response := fun _ _ _ => Raise (ExternalError "503");
  provider_stream := fun _ client _ => broken_stream client
|}.

End Offline.

(** ** The collaborators of the repository

    The sampling helper, the defaults of the sampling parameters, the
    renderers and the stream normalisers as the modules that the adapter
    imports have them, and a provider whose awaited streaming call hands
    back an async generator. *)

Module Upstream.

(** The sampling parameters, with their defaults: temperature 0.0, top-p
    0.95, top-k 0, max tokens 0 and repetition penalty 1.0. *)
Record UpstreamSamplingParams : Type := {
  temperature : option Q;
  top_p : option Q;
  top_k : option Z;
  max_tokens : option Z;
  repetition_penalty : option Q
}.

Definition default_params : UpstreamSamplingParams :=
  {| temperature := Some (Qmake 0 1); top_p := Some (Qmake 19 20);
     top_k := Some 0%Z; max_tokens := Some 0%Z;
     repetition_penalty := Some (Qmake 1 1) |}.

#[local] Instance types : Types := {|
  SamplingParams := UpstreamSamplingParams;
  LogProbConfig := unit;
  ToolDefinition := string;
  ToolChoice := string;
  ToolPromptFormat := string;
  Image := string;
  Raw := string;
  Norm := string;
  NormState := unit
|}.

(** [if getattr(params, attr)] on a float and on an integer setting. *)
Definition truthy_float (x : option Q) : bool :=
  match x with Some q => negb (Qeq_bool q (Qmake 0 1)) | None => false end.

Definition truthy_int (x : option Z) : bool :=
  match x with Some z => negb (Z.eqb z 0) | None => false end.

Definition set_if (b : bool) (k : string) (v : option value) (d : dict) : dict :=
  match v with
  | Some v => if b then <[k := v]> d else d
  | None => d
  end.

(** [get_sampling_options] of the OpenAI-compatibility helper module: each
    of temperature, top-p, top-k and max tokens is an option when its
    setting is truthy, and the repetition penalty, under the name
    [repeat_penalty], when it is set and is not 1.0. *)
Definition upstream_get_sampling_options (params : option UpstreamSamplingParams)
    : dict :=
  match params with
  | None => ∅
  | Some p =>
      set_if (match repetition_penalty p with
              | Some q => negb (Qeq_bool q (Qmake 1 1))
              | None => false
              end) "repeat_penalty" (VFloat <$> repetition_penalty p)
        (set_if (truthy_int (max_tokens p)) "max_tokens" (VInt <$> max_tokens p)
           (set_if (truthy_int (top_k p)) "top_k" (VInt <$> top_k p)
              (set_if (truthy_float (top_p p)) "top_p" (VFloat <$> top_p p)
                 (set_if (truthy_float (temperature p)) "temperature"
                    (VFloat <$> temperature p) ∅))))
  end.

(** The completion renderer encodes the content, which opens it with the
    beginning-of-sequence marker, and decodes it back. *)
Definition render_completion (r : @CompletionRequest types) : result string :=
  Ok (BOS ++ Reference.content_text (c_content r)).

(** The chat renderer reads the first message before anything else, and
    raises on an empty list of messages. *)
Definition render_chat (r : @ChatCompletionRequest types) (llama_model : option string)
    : result string :=
  match messages r with
  | [] => Raise (ExternalError "list index out of range")
  | ms =>
      Ok (BOS ++ String.concat ""
                   (map (fun m => "<" ++ role m ++ ">" ++ Reference.content_text (content m))
                        ms))
  end.

(** The chat normaliser opens with a start event before it reads the
    stream and closes with a complete event; the completion normaliser
    reads the stream first and closes with a final event. *)
Definition start_events (k : Kind) : list string :=
  match k with KChat => ["start"] | KCompletion => [] end.

Definition end_events (k : Kind) : list string :=
  match k with KChat => ["complete"] | KCompletion => ["final"] end.

(** The awaited [acreate] hands back an async generator, the synchronous
    [create] a generator. *)
Definition stream_of (ep : Endpoint) : StreamHandle string :=
  match ep with
  | chat_completions_acreate => NotIterable
  | _ => Iterable [Ok "chunk 1"; Ok "chunk 2"]
  end.

Definition collaborators : @Collaborators types := {|
  SamplingParams_default := default_params;
  get_sampling_options := upstream_get_sampling_options;
  get_llama_model := Reference.spec_get_llama_model;
  model_store_get_model := Reference.spec_get_model;
  convert_message_to_dict := Reference.spec_convert_message_to_dict;
  completion_request_to_prompt := render_completion;
  chat_completion_request_to_prompt := render_chat;
  process_completion_response := fun r => r;
  process_chat_completion_response := fun r => r;
  norm_start := start_events;
  norm_init := fun _ => tt;
  norm_chunk := fun _ ns chunk => ([chunk], ns);
  norm_end := fun k _ => end_events k;
  provider_response := fun _ _ _ => Ok "response";
  provider_stream := fun ep _ _ => Ok (stream_of ep)
|}.

Definition hello : @CompletionRequest types :=
  @Build_CompletionRequest types
    "fireworks/llama-v3p1-8b-instruct" (Single (TextItem "Hello"))
    (Some default_params) None (Some false) None.

Definition chat_of (ms : list (Message string)) (stream : bool)
    : @ChatCompletionRequest types :=
  @Build_ChatCompletionRequest types
    "fireworks/llama-v3p2-11b-vision-instruct" ms (Some default_params)
    [] None None None (Some stream) None.

End Upstream.

(** * Vocabulary of the properties *)

(** The response formats the option mapper accepts: none, or one whose tag
    is [json_schema] or [grammar] and which carries the attribute that the
    tag announces. *)
Definition format_supported (fmt : option ResponseFormat) : Prop :=
  match fmt with
  | None => True
  | Some f =>
      (type f = "json_schema" /\ is_Some (json_schema f)) \/
      (type f = "grammar" /\ is_Some (bnf f))
  end.

(** The keys the request builder and the option mapper write themselves. *)
Definition reserved_keys : list string :=
  ["model"; "prompt"; "messages"; "stream"; "response_format"].

(** The sampling helper emits sampling options only. *)
Definition sampling_options_only `{Collaborators} : Prop :=
  forall sp k, k ∈ reserved_keys -> get_sampling_options sp !! k = None.

(** What the renderer returns for a request, when the builder calls it. *)
Definition render `{Collaborators} (request : Request) : option (result string) :=
  match request with
  | Chat r =>
      if request_has_media (Chat r) then None
      else Some (chat_completion_request_to_prompt r (get_llama_model (model r)))
  | Completion r =>
      if request_has_media (Completion r) then None
      else Some (completion_request_to_prompt r)
  end.

(** The prompt that the builder renders for a request, when it renders one. *)
Definition rendered_prompt `{Collaborators} (request : Request) : option string :=
  match render request with
  | Some (Ok p) => Some p
  | _ => None
  end.

(** The builder raises, or it succeeds and no credential can be resolved. *)
Definition fails_before_call `{Collaborators} (self : FireworksInferenceAdapter)
    (request : Request) (e : exn) : Prop :=
  _get_params request = Raise e \/
  exists params, _get_params request = Ok params /\ _get_client self = Raise e.

(** The message of the assertion on completion requests with media. *)
Definition media_message : string :=
  "Fireworks does not support media for Completion requests".

(** The payload of the end-to-end completion scenario. *)
Definition hello_payload (resolved : string) : dict :=
  {[ "model" := VStr resolved; "prompt" := VStr "Hello";
     "stream" := VBool false; "max_tokens" := VInt 512 ]}.

(** The key under which the builder stores the prompt or the messages. *)
Definition shape_key `{Types} (request : Request) : string :=
  match request with
  | Chat r => if request_has_media (Chat r) then "messages" else "prompt"
  | Completion _ => "prompt"
  end.

(** The events a stream normaliser emits for the chunks of a provider
    stream, in order, closed by those it emits at the end of the stream. *)
Fixpoint events_of `{Collaborators} (k : Kind) (ns : NormState) (chunks : list Raw)
    : list Norm :=
  match chunks with
  | [] => norm_end k ns
  | chunk :: chunks' =>
      (fst (norm_chunk k ns chunk)
         ++ events_of k (snd (norm_chunk k ns chunk)) chunks')%list
  end.

(** The same without the closing events: what the normaliser emits for the
    chunks of a stream that has not ended. *)
Fixpoint events_before `{Collaborators} (k : Kind) (ns : NormState) (chunks : list Raw)
    : list Norm :=
  match chunks with
  | [] => []
  | chunk :: chunks' =>
      (fst (norm_chunk k ns chunk)
         ++ events_before k (snd (norm_chunk k ns chunk)) chunks')%list
  end.

(** The events the normaliser emits for the pulls to come of an open
    stream, and the error of the first pull that raises, if one does. *)
Fixpoint item_events `{Collaborators} (k : Kind) (ns : NormState)
    (items : list (result Raw)) : list Norm * option exn :=
  match items with
  | [] => (norm_end k ns, None)
  | Ok chunk :: items' =>
      ((fst (norm_chunk k ns chunk)
          ++ fst (item_events k (snd (norm_chunk k ns chunk)) items'))%list,
       snd (item_events k (snd (norm_chunk k ns chunk)) items'))
  | Raise e :: _ => ([], Some e)
  end.

(** What [async for], bounded by [fuel] iterations, returns on a generator
    that yields [evs] and then ends, or raises [err]. *)
Definition iteration {A : Type} (fuel : nat) (evs : list A) (err : option exn)
    : result (list A) :=
  match err with
  | Some e => if (fuel <=? length evs)%nat then Ok (take fuel evs) else Raise e
  | None => Ok (take fuel evs)
  end.

(** The events a generator with an open stream has still to yield, and the
    error that follows them, if any. *)
Definition script `{Collaborators} (g : AsyncGen) : option (list Norm * option exn) :=
  match g with
  | StreamCompletion _ | StreamChat _ | Started _ _ _ => None
  | Draining k items ns pending =>
      Some ((pending ++ fst (item_events k ns items))%list,
            snd (item_events k ns items))
  | Flushing pending => Some (pending, None)
  | Finished => Some ([], None)
  end.

(** What one step must return when [evs] are the events to come and [err]
    the error after them. *)
Definition steps_to `{Collaborators} (r : result (option (Norm * AsyncGen)))
    (evs : list Norm) (err : option exn) : Prop :=
  match evs, err with
  | ev :: rest, _ => exists g', r = Ok (Some (ev, g')) /\ script g' = Some (rest, err)
  | [], None => r = Ok None
  | [], Some e => r = Raise e
  end.

(** The generator of a request, its kind, and the entry point of the
    provider on which its stream is opened. *)
Definition stream_of_request `{Collaborators} (request : Request) : AsyncGen :=
  match request with
  | Completion r => _stream_completion r
  | Chat r => _stream_chat_completion r
  end.

Definition kind_of `{Types} (request : Request) : Kind :=
  match request with Completion _ => KCompletion | Chat _ => KChat end.

Definition stream_endpoint (k : Kind) (params : dict) : Endpoint :=
  match k with
  | KCompletion => completion_create
  | KChat => if contains params "messages"
             then chat_completions_acreate else completion_create
  end.

(** What opening the stream of a generator gives: the events to come and
    the error after them, and the provider calls that opening makes. *)
Definition opening `{Collaborators} (self : FireworksInferenceAdapter) (k : Kind)
    (params : dict) : (list Norm * option exn) * list Event :=
  match _get_client self with
  | Raise e => (([], Some e), [])
  | Ok client =>
      (match provider_stream (stream_endpoint k params) client params with
       | Raise e => ([], Some e)
       | Ok stream =>
           match iterate stream with
           | Raise e => ([], Some e)
           | Ok items => item_events k (norm_init k) items
           end
       end,
       [Call client (stream_endpoint k params) params])
  end.

(** * Properties *)

Ltac run_io :=
  unfold mbind, IO_bind, mret, IO_ret, raise, lift, call; simpl.


(** ** Strings *)

Lemma startswith_app (p q : string) : startswith (p ++ q) p = true.
Proof.
  induction p as [|a p IH]; simpl.
  - reflexivity.
  - rewrite Ascii.eqb_refl. exact IH.
Qed.

Lemma startswith_inv (s p : string) :
  startswith s p = true -> exists q, s = p ++ q.
Proof.
  revert s. induction p as [|a p IH]; intros s Hs; simpl in *.
  - exists s. reflexivity.
  - destruct s as [|b s]; [discriminate|].
    destruct (Ascii.eqb_spec a b) as [->|]; [|discriminate].
    destruct (IH s Hs) as [q ->]. exists q. reflexivity.
Qed.

Lemma slice_from_app (p q : string) : slice_from (String.length p) (p ++ q) = q.
Proof. induction p as [|a p IH]; simpl; [reflexivity | exact IH]. Qed.

Lemma startswith_false (s p : string) :
  startswith s p = false -> forall q, s <> p ++ q.
Proof.
  intros Hs q ->. rewrite startswith_app in Hs. discriminate.
Qed.

(** ** Dictionaries *)

Lemma lookup_update (d new : dict) (k : string) :
  update d new !! k = match new !! k with Some v => Some v | None => d !! k end.
Proof.
  unfold update. destruct (new !! k) as [v|] eqn:Hk.
  - apply lookup_union_Some_l. exact Hk.
  - rewrite lookup_union_r; auto.
Qed.

Lemma lookup_setdefault (k k' : string) (v : value) (d : dict) :
  setdefault k v d !! k' =
  if decide (k = k') then Some (default v (d !! k)) else d !! k'.
Proof.
  unfold setdefault. destruct (decide (k = k')) as [<-|Hne].
  - destruct (d !! k) as [w|] eqn:Hk; simpl; [exact Hk | apply lookup_insert_eq].
  - destruct (d !! k); [reflexivity | apply lookup_insert_ne; exact Hne].
Qed.

Lemma contains_true (d : dict) (k : string) :
  contains d k = true <-> is_Some (d !! k).
Proof. unfold contains. apply bool_decide_eq_true. Qed.

Lemma contains_false (d : dict) (k : string) :
  contains d k = false <-> d !! k = None.
Proof.
  unfold contains. rewrite bool_decide_eq_false. rewrite eq_None_not_Some. tauto.
Qed.

(** ** The option mapper *)

Section OptionMapper.
Context `{Collaborators}.

Lemma build_options_no_format (sp : option SamplingParams) :
  _build_options sp None = Ok (setdefault "max_tokens" (VInt 512) (get_sampling_options sp)).
Proof. reflexivity. Qed.

Lemma build_options_json_schema (sp : option SamplingParams) (f : ResponseFormat) (S : value) :
  type f = "json_schema" -> json_schema f = Some S ->
  _build_options sp (Some f) =
  Ok (<["response_format" := VDict {[ "type" := VStr "json_object"; "schema" := S ]}]>
        (setdefault "max_tokens" (VInt 512) (get_sampling_options sp))).
Proof. intros Ht Hs. unfold _build_options. rewrite Ht, Hs. reflexivity. Qed.

Lemma build_options_grammar (sp : option SamplingParams) (f : ResponseFormat) (G : value) :
  type f = "grammar" -> bnf f = Some G ->
  _build_options sp (Some f) =
  Ok (<["response_format" := VDict {[ "type" := VStr "grammar"; "grammar" := G ]}]>
        (setdefault "max_tokens" (VInt 512) (get_sampling_options sp))).
Proof. intros Ht Hs. unfold _build_options. rewrite Ht, Hs. reflexivity. Qed.

Lemma build_options_unknown (sp : option SamplingParams) (f : ResponseFormat) :
  type f <> "json_schema" -> type f <> "grammar" ->
  _build_options sp (Some f) = Raise (ValueError ("Unknown response format " ++ type f)).
Proof.
  intros H1 H2. unfold _build_options.
  apply String.eqb_neq in H1, H2. rewrite H1, H2. reflexivity.
Qed.

(** Every result of the option mapper is the sampling options with the
    default cap, plus at most a [response_format] entry. *)
Lemma build_options_inv (sp : option SamplingParams) (fmt : option ResponseFormat)
    (options : dict) :
  _build_options sp fmt = Ok options ->
  format_supported fmt /\
  forall k, k <> "response_format" ->
    options !! k = setdefault "max_tokens" (VInt 512) (get_sampling_options sp) !! k.
Proof.
  unfold _build_options. destruct fmt as [f|]; simpl.
  - destruct (String.eqb_spec (type f) "json_schema") as [Ht|Ht].
    + destruct (json_schema f) as [S|] eqn:HS; [|discriminate].
      intros [= <-]. split; [left; eauto|].
      intros k Hk. apply lookup_insert_ne. congruence.
    + destruct (String.eqb_spec (type f) "grammar") as [Hg|Hg]; [|discriminate].
      destruct (bnf f) as [G|] eqn:HG; [|discriminate].
      intros [= <-]. split; [right; eauto|].
      intros k Hk. apply lookup_insert_ne. congruence.
  - intros [= <-]. split; [exact I | reflexivity].
Qed.

Lemma build_options_supported (sp : option SamplingParams) (fmt : option ResponseFormat) :
  format_supported fmt -> exists options, _build_options sp fmt = Ok options.
Proof.
  destruct fmt as [f|]; unfold format_supported.
  - intros [[Ht [S HS]]|[Ht [G HG]]].
    + erewrite build_options_json_schema by eassumption. eauto.
    + erewrite build_options_grammar by eassumption. eauto.
  - intros _. rewrite build_options_no_format. eauto.
Qed.

(** A reserved key other than [response_format] never comes out of the
    option mapper. *)
Lemma build_options_reserved (sp : option SamplingParams) (fmt : option ResponseFormat)
    (options : dict) (k : string) :
  sampling_options_only ->
  _build_options sp fmt = Ok options ->
  k ∈ reserved_keys -> k <> "response_format" ->
  options !! k = None.
Proof.
  intros Hlaw Hb Hk Hne. destruct (build_options_inv _ _ _ Hb) as [_ Hl].
  rewrite (Hl k Hne), lookup_setdefault.
  destruct (decide ("max_tokens" = k)) as [<-|_].
  - apply list_elem_of_In in Hk. simpl in Hk. intuition discriminate.
  - apply Hlaw. exact Hk.
Qed.

(** C5: when the sampling options carry no [max_tokens] the option mapper
    returns options with [max_tokens = 512]; when they carry one, that value
    is in the returned options unchanged. The option mapper returns options
    for every supported response format. *)
Theorem build_options_max_tokens (sp : option SamplingParams)
    (fmt : option ResponseFormat) :
  format_supported fmt ->
  exists options, _build_options sp fmt = Ok options /\
    (get_sampling_options sp !! "max_tokens" = None ->
       options !! "max_tokens" = Some (VInt 512)) /\
    (forall v, get_sampling_options sp !! "max_tokens" = Some v ->
       options !! "max_tokens" = Some v).
Proof.
  intros Hf. destruct (build_options_supported sp fmt Hf) as [options Hb].
  exists options. split; [exact Hb|].
  destruct (build_options_inv _ _ _ Hb) as [_ Hl].
  rewrite (Hl "max_tokens") by discriminate.
  rewrite lookup_setdefault. rewrite decide_True by reflexivity.
  split; [intros ->|intros v ->]; reflexivity.
Qed.

(** C4: the option mapper maps [response_format] to exactly
    [{"type": "json_object", "schema": S}] for the json_schema variant and
    to exactly [{"type": "grammar", "grammar": G}] for the grammar variant,
    emits no [response_format] key when no format is supplied, and raises on
    any other format tag. *)
Theorem build_options_response_format (sp : option SamplingParams) :
  sampling_options_only ->
  (forall f S, type f = "json_schema" -> json_schema f = Some S ->
     exists options, _build_options sp (Some f) = Ok options /\
       options !! "response_format" =
       Some (VDict {[ "type" := VStr "json_object"; "schema" := S ]})) /\
  (forall f G, type f = "grammar" -> bnf f = Some G ->
     exists options, _build_options sp (Some f) = Ok options /\
       options !! "response_format" =
       Some (VDict {[ "type" := VStr "grammar"; "grammar" := G ]})) /\
  (exists options, _build_options sp None = Ok options /\
     options !! "response_format" = None) /\
  (forall f, type f <> "json_schema" -> type f <> "grammar" ->
     _build_options sp (Some f) =
     Raise (ValueError ("Unknown response format " ++ type f))).
Proof.
  intros Hlaw. repeat split.
  - intros f S Ht HS. eexists. split; [apply build_options_json_schema; eassumption|].
    apply lookup_insert_eq.
  - intros f G Ht HG. eexists. split; [apply build_options_grammar; eassumption|].
    apply lookup_insert_eq.
  - eexists. split; [apply build_options_no_format|].
    rewrite lookup_setdefault. rewrite decide_False by discriminate.
    apply Hlaw. apply list_elem_of_In. simpl. tauto.
  - intros f H1 H2. apply build_options_unknown; assumption.
Qed.

End OptionMapper.

(** ** The request builder *)

Section RequestBuilder.
Context `{Collaborators}.

Lemma build_options_raise (sp : option SamplingParams) (fmt : option ResponseFormat)
    (e : exn) :
  _build_options sp fmt = Raise e -> ~ format_supported fmt.
Proof.
  intros Hb Hf. destruct (build_options_supported sp fmt Hf) as [o Ho]. congruence.
Qed.

Lemma strip_bos_messages (d : dict) : strip_bos d !! "messages" = d !! "messages".
Proof.
  unfold strip_bos. destruct (d !! "prompt") as [[| | | |p| |]|]; try reflexivity.
  destruct (startswith p BOS); [|reflexivity].
  apply lookup_insert_ne. discriminate.
Qed.

Lemma strip_bos_prompt (d : dict) (p : string) :
  d !! "prompt" = Some (VStr p) ->
  strip_bos d !! "prompt" =
  Some (VStr (if startswith p BOS then slice_from (String.length BOS) p else p)).
Proof.
  intros Hp. unfold strip_bos. rewrite Hp.
  destruct (startswith p BOS); [apply lookup_insert_eq | exact Hp].
Qed.

Lemma strip_bos_no_prompt (d : dict) :
  d !! "prompt" = None -> strip_bos d = d.
Proof. intros Hp. unfold strip_bos. rewrite Hp. reflexivity. Qed.

(** [_get_params] succeeds exactly when both of its halves do, and then
    the payload is the merge written in its [return]. *)
Lemma get_params_inv (request : Request) (payload : dict) :
  _get_params request = Ok payload ->
  exists input_dict options,
    input_dict_of request = Ok input_dict /\
    _build_options (request_sampling_params request)
                   (request_response_format request) = Ok options /\
    payload =
    update (<["stream" := value_of_optional_bool (request_stream request)]>
              (update {[ "model" := VStr (request_model request) ]} (strip_bos input_dict)))
           options.
Proof.
  unfold _get_params. destruct (input_dict_of request) as [d|e]; [|discriminate].
  simpl. destruct (_build_options _ _) as [o|e]; [|discriminate].
  simpl. intros [= <-]. eauto.
Qed.

Lemma get_params_ok (request : Request) (input_dict options : dict) :
  input_dict_of request = Ok input_dict ->
  _build_options (request_sampling_params request)
                 (request_response_format request) = Ok options ->
  _get_params request =
  Ok (update (<["stream" := value_of_optional_bool (request_stream request)]>
                (update {[ "model" := VStr (request_model request) ]} (strip_bos input_dict)))
             options).
Proof. intros Hi Ho. unfold _get_params. rewrite Hi. simpl. rewrite Ho. reflexivity. Qed.

Lemma get_params_raise (request : Request) (e : exn) :
  _get_params request = Raise e ->
  input_dict_of request = Raise e \/
  ~ format_supported (request_response_format request).
Proof.
  unfold _get_params. destruct (input_dict_of request) as [d|e']; simpl.
  - destruct (_build_options _ _) as [o|e''] eqn:Hb; [discriminate|].
    intros _. right. eapply build_options_raise. exact Hb.
  - intros [= ->]. left. reflexivity.
Qed.

(** In a built payload, [prompt] and [messages] are what the first half of
    the builder put there. *)
Lemma payload_shape_key (request : Request) (payload input_dict : dict) (k : string) :
  sampling_options_only ->
  _get_params request = Ok payload ->
  input_dict_of request = Ok input_dict ->
  k = "prompt" \/ k = "messages" ->
  payload !! k = strip_bos input_dict !! k.
Proof.
  intros Hlaw Hp Hi Hk.
  destruct (get_params_inv _ _ Hp) as (d & o & Hd & Ho & ->).
  rewrite Hi in Hd. injection Hd as <-.
  rewrite lookup_update.
  rewrite (build_options_reserved _ _ _ k Hlaw Ho).
  - rewrite lookup_insert_ne by (destruct Hk as [->| ->]; discriminate).
    rewrite lookup_update.
    rewrite lookup_singleton_ne by (destruct Hk as [->| ->]; discriminate).
    destruct (strip_bos input_dict !! k); reflexivity.
  - apply list_elem_of_In. simpl. destruct Hk as [->| ->]; tauto.
  - destruct Hk as [->| ->]; discriminate.
Qed.

Lemma input_dict_of_rendered (request : Request) (p : string) :
  rendered_prompt request = Some p ->
  input_dict_of request = Ok {[ "prompt" := VStr p ]}.
Proof.
  unfold rendered_prompt, render, input_dict_of.
  destruct request as [r|r]; destruct (request_has_media _); try discriminate.
  - destruct (completion_request_to_prompt r); intros [= <-]; reflexivity.
  - destruct (chat_completion_request_to_prompt r _); intros [= <-]; reflexivity.
Qed.

Lemma input_dict_of_render_raise (request : Request) (e : exn) :
  render request = Some (Raise e) ->
  input_dict_of request = Raise e.
Proof.
  unfold render, input_dict_of.
  destruct request as [r|r]; destruct (request_has_media _); try discriminate;
    intros [= ->]; reflexivity.
Qed.

Lemma rendered_prompt_render (request : Request) (p : string) :
  render request = Some (Ok p) -> rendered_prompt request = Some p.
Proof. intros Hr. unfold rendered_prompt. rewrite Hr. reflexivity. Qed.

Lemma get_params_prompt (request : Request) (p : string) (payload : dict) :
  sampling_options_only ->
  rendered_prompt request = Some p ->
  _get_params request = Ok payload ->
  payload !! "prompt" =
    Some (VStr (if startswith p BOS then slice_from (String.length BOS) p else p)) /\
  payload !! "messages" = None.
Proof.
  intros Hlaw Hr Hp. pose proof (input_dict_of_rendered _ _ Hr) as Hi. split.
  - rewrite (payload_shape_key _ _ _ "prompt" Hlaw Hp Hi) by tauto.
    apply strip_bos_prompt. apply lookup_singleton_eq.
  - rewrite (payload_shape_key _ _ _ "messages" Hlaw Hp Hi) by tauto.
    rewrite strip_bos_messages. apply lookup_singleton_ne. discriminate.
Qed.

(** C3: when the rendered prompt begins with the beginning-of-sequence
    marker, the payload's prompt is the rendered prompt without that one
    leading marker (the marker alone becomes the empty string, two markers
    keep the second); when it does not, the prompt is unchanged. *)
Theorem prompt_bos_stripped (request : Request) (p : string) :
  sampling_options_only ->
  rendered_prompt request = Some p ->
  format_supported (request_response_format request) ->
  exists payload, _get_params request = Ok payload /\
    (forall q, p = BOS ++ q -> payload !! "prompt" = Some (VStr q)) /\
    (p = BOS -> payload !! "prompt" = Some (VStr "")) /\
    (forall q, p = BOS ++ BOS ++ q -> payload !! "prompt" = Some (VStr (BOS ++ q))) /\
    ((forall q, p <> BOS ++ q) -> payload !! "prompt" = Some (VStr p)).
Proof.
  intros Hlaw Hr Hf.
  destruct (build_options_supported (request_sampling_params request) _ Hf) as [o Ho].
  pose proof (get_params_ok _ _ _ (input_dict_of_rendered _ _ Hr) Ho) as Hp.
  eexists. split; [exact Hp|].
  destruct (get_params_prompt _ _ _ Hlaw Hr Hp) as [-> _].
  assert (Hstrip : forall q, p = BOS ++ q ->
            Some (VStr (if startswith p BOS then slice_from (String.length BOS) p else p))
            = Some (VStr q)).
  { intros q ->. rewrite startswith_app, slice_from_app. reflexivity. }
  repeat split.
  - exact Hstrip.
  - intros Hb. apply Hstrip. rewrite Hb. reflexivity.
  - intros q Hq. apply Hstrip. exact Hq.
  - intros Hn. destruct (startswith p BOS) eqn:Hs; [|reflexivity].
    destruct (startswith_inv _ _ Hs) as [q Hq]. destruct (Hn q Hq).
Qed.

Lemma input_dict_of_chat_media (r : ChatCompletionRequest) (ms : list value) :
  request_has_media (Chat r) = true ->
  result_mapM convert_message_to_dict (messages r) = Ok ms ->
  input_dict_of (Chat r) = Ok {[ "messages" := VList ms ]}.
Proof. intros Hm HM. unfold input_dict_of. rewrite Hm, HM. reflexivity. Qed.

Lemma input_dict_of_chat_media_raise (r : ChatCompletionRequest) (e : exn) :
  request_has_media (Chat r) = true ->
  result_mapM convert_message_to_dict (messages r) = Raise e ->
  input_dict_of (Chat r) = Raise e.
Proof. intros Hm HM. unfold input_dict_of. rewrite Hm, HM. reflexivity. Qed.

(** The dispatcher's test on the payload agrees with the builder's test on
    the request. *)
Lemma chat_messages_key (r : ChatCompletionRequest) (payload : dict) :
  sampling_options_only ->
  _get_params (Chat r) = Ok payload ->
  contains payload "messages" = request_has_media (Chat r).
Proof.
  intros Hlaw Hp. destruct (request_has_media (Chat r)) eqn:Hm.
  - destruct (result_mapM convert_message_to_dict (messages r)) as [ms|e] eqn:HM.
    + pose proof (input_dict_of_chat_media r ms Hm HM) as Hi.
      apply contains_true.
      rewrite (payload_shape_key _ _ _ "messages" Hlaw Hp Hi) by tauto.
      rewrite strip_bos_messages, lookup_singleton_eq. eauto.
    + pose proof (input_dict_of_chat_media_raise r e Hm HM) as Hi.
      destruct (get_params_inv _ _ Hp) as (d & o & Hd & _). congruence.
  - assert (Hr : render (Chat r) =
                 Some (chat_completion_request_to_prompt r (get_llama_model (model r))))
      by (unfold render; rewrite Hm; reflexivity).
    destruct (chat_completion_request_to_prompt r (get_llama_model (model r))) as [p|e].
    + apply contains_false.
      exact (proj2 (get_params_prompt _ _ _ Hlaw (rendered_prompt_render _ _ Hr) Hp)).
    + pose proof (input_dict_of_render_raise _ _ Hr) as Hi.
      destruct (get_params_inv _ _ Hp) as (d & o & Hd & _). congruence.
Qed.

(** C1: a chat request without media is built into a payload that has
    [prompt] and no [messages]; a chat request with media into a payload
    that has [messages], the rendered messages in order, and no [prompt].
    The builder raises only when rendering a message raises, when rendering
    the prompt raises, or when the response format is not supported. *)
Theorem chat_payload_shape (r : ChatCompletionRequest) :
  sampling_options_only ->
  match _get_params (Chat r) with
  | Ok payload =>
      if request_has_media (Chat r) then
        (exists ms, result_mapM convert_message_to_dict (messages r) = Ok ms /\
                    payload !! "messages" = Some (VList ms)) /\
        payload !! "prompt" = None
      else
        (exists p, payload !! "prompt" = Some (VStr p)) /\
        payload !! "messages" = None
  | Raise e =>
      (request_has_media (Chat r) = true /\
       result_mapM convert_message_to_dict (messages r) = Raise e) \/
      (request_has_media (Chat r) = false /\
       chat_completion_request_to_prompt r (get_llama_model (model r)) = Raise e) \/
      ~ format_supported (response_format r)
  end.
Proof.
  intros Hlaw. destruct (_get_params (Chat r)) as [payload|e] eqn:Hp.
  - destruct (request_has_media (Chat r)) eqn:Hm.
    + destruct (result_mapM convert_message_to_dict (messages r)) as [ms|e] eqn:HM.
      * pose proof (input_dict_of_chat_media r ms Hm HM) as Hi. split.
        -- exists ms. split; [reflexivity|].
           rewrite (payload_shape_key _ _ _ "messages" Hlaw Hp Hi) by tauto.
           rewrite strip_bos_messages. apply lookup_singleton_eq.
        -- rewrite (payload_shape_key _ _ _ "prompt" Hlaw Hp Hi) by tauto.
           rewrite strip_bos_no_prompt; apply lookup_singleton_ne; discriminate.
      * pose proof (input_dict_of_chat_media_raise r e Hm HM) as Hi.
        destruct (get_params_inv _ _ Hp) as (d & o & Hd & _). congruence.
    + assert (Hr : render (Chat r) =
                   Some (chat_completion_request_to_prompt r (get_llama_model (model r))))
        by (unfold render; rewrite Hm; reflexivity).
      destruct (chat_completion_request_to_prompt r (get_llama_model (model r))) as [p|e].
      * destruct (get_params_prompt _ _ _ Hlaw (rendered_prompt_render _ _ Hr) Hp)
          as [Hpr Hms]. eauto.
      * pose proof (input_dict_of_render_raise _ _ Hr) as Hi.
        destruct (get_params_inv _ _ Hp) as (d & o & Hd & _). congruence.
  - destruct (get_params_raise _ _ Hp) as [Hi|Hf]; [|right; right; exact Hf].
    destruct (request_has_media (Chat r)) eqn:Hm.
    + left. split; [reflexivity|].
      destruct (result_mapM convert_message_to_dict (messages r)) as [ms|e'] eqn:HM.
      * rewrite (input_dict_of_chat_media r ms Hm HM) in Hi. discriminate.
      * rewrite (input_dict_of_chat_media_raise r e' Hm HM) in Hi. congruence.
    + right. left. split; [reflexivity|].
      assert (Hr : render (Chat r) =
                   Some (chat_completion_request_to_prompt r (get_llama_model (model r))))
        by (unfold render; rewrite Hm; reflexivity).
      destruct (chat_completion_request_to_prompt r (get_llama_model (model r))) as [p|e'].
      * rewrite (input_dict_of_rendered _ _ (rendered_prompt_render _ _ Hr)) in Hi.
        discriminate.
      * rewrite (input_dict_of_render_raise _ _ Hr) in Hi. congruence.
Qed.

End RequestBuilder.

(** ** The call dispatcher *)

Section CallDispatcher.
Context `{Collaborators}.
Variable self : FireworksInferenceAdapter.

Lemma nonstream_completion_fails (r : CompletionRequest) (e : exn) (tr : list Event) :
  fails_before_call self (Completion r) e ->
  _nonstream_completion self r tr = (Raise e, tr).
Proof.
  intros [Hp|(params & Hp & Hc)]; unfold _nonstream_completion; run_io; rewrite Hp.
  - reflexivity.
  - rewrite Hc. reflexivity.
Qed.

Lemma nonstream_completion_calls (r : CompletionRequest) (params : dict)
    (client : Fireworks) (tr : list Event) :
  _get_params (Completion r) = Ok params ->
  _get_client self = Ok client ->
  _nonstream_completion self r tr =
  (match provider_response completion_acreate client params with
   | Ok raw => Ok (process_completion_response raw)
   | Raise e => Raise e
   end, (tr ++ [Call client completion_acreate params])%list).
Proof.
  intros Hp Hc. unfold _nonstream_completion. run_io. rewrite Hp, Hc.
  destruct (provider_response _ _ _); reflexivity.
Qed.

Lemma nonstream_chat_fails (r : ChatCompletionRequest) (e : exn) (tr : list Event) :
  fails_before_call self (Chat r) e ->
  _nonstream_chat_completion self r tr = (Raise e, tr).
Proof.
  intros [Hp|(params & Hp & Hc)]; unfold _nonstream_chat_completion; run_io; rewrite Hp.
  - reflexivity.
  - destruct (contains params "messages"); rewrite Hc; reflexivity.
Qed.

Lemma nonstream_chat_calls (r : ChatCompletionRequest) (params : dict)
    (client : Fireworks) (tr : list Event) :
  _get_params (Chat r) = Ok params ->
  _get_client self = Ok client ->
  let ep := if contains params "messages"
            then chat_completions_acreate else completion_acreate in
  _nonstream_chat_completion self r tr =
  (match provider_response ep client params with
   | Ok raw => Ok (process_chat_completion_response raw)
   | Raise e => Raise e
   end, (tr ++ [Call client ep params])%list).
Proof.
  intros Hp Hc. unfold _nonstream_chat_completion. run_io. rewrite Hp.
  destruct (contains params "messages"); rewrite Hc;
    destruct (provider_response _ _ _); reflexivity.
Qed.

Lemma open_stream_fails (k : Kind) (params : dict) (e : exn) (tr : list Event) :
  _get_client self = Raise e ->
  open_stream self k params tr = (Raise e, tr).
Proof.
  intros Hc. unfold open_stream. run_io.
  destruct k; [|destruct (contains params "messages")]; rewrite Hc; reflexivity.
Qed.

Lemma open_stream_calls (k : Kind) (params : dict) (client : Fireworks)
    (tr : list Event) :
  _get_client self = Ok client ->
  open_stream self k params tr =
  (provider_stream (stream_endpoint k params) client params,
   (tr ++ [Call client (stream_endpoint k params) params])%list).
Proof.
  intros Hc. unfold open_stream, stream_endpoint. run_io.
  destruct k; [|destruct (contains params "messages")]; rewrite Hc; reflexivity.
Qed.

(** The first step of a generator runs the builder, and no more when the
    builder raises. *)
Lemma anext_fresh_fails (request : Request) (e : exn) (tr : list Event) :
  _get_params request = Raise e ->
  anext self (stream_of_request request) tr = (Raise e, tr).
Proof.
  intros Hp. destruct request as [r|r];
    unfold stream_of_request, _stream_completion, _stream_chat_completion, anext;
    unfold mbind at 1, IO_bind at 1, lift at 1; rewrite Hp; reflexivity.
Qed.

(** With the payload built, the first step is the step of the normaliser
    that has all its start events to hand over. *)
Lemma anext_fresh_started (request : Request) (params : dict) (tr : list Event) :
  _get_params request = Ok params ->
  anext self (stream_of_request request) tr =
  anext self (Started (kind_of request) params (norm_start (kind_of request))) tr.
Proof.
  intros Hp. destruct request as [r|r];
    unfold stream_of_request, _stream_completion, _stream_chat_completion, anext;
    unfold mbind at 1, IO_bind at 1, lift at 1; rewrite Hp; reflexivity.
Qed.

Lemma collect_S (fuel : nat) (g : AsyncGen) (tr : list Event) :
  collect (S fuel) self g tr =
  match anext self g tr with
  | (Ok None, tr') => (Ok [], tr')
  | (Ok (Some (ev, g')), tr') =>
      match collect fuel self g' tr' with
      | (Ok evs, tr'') => (Ok (ev :: evs), tr'')
      | (Raise e, tr'') => (Raise e, tr'')
      end
  | (Raise e, tr') => (Raise e, tr')
  end.
Proof.
  simpl. unfold mbind, IO_bind, mret, IO_ret.
  destruct (anext self g tr) as [[[[ev g']|]|e] tr']; reflexivity.
Qed.

Lemma iteration_cons {A : Type} (fuel : nat) (ev : A) (evs : list A) (err : option exn) :
  iteration (S fuel) (ev :: evs) err =
  match iteration fuel evs err with
  | Ok l => Ok (ev :: l)
  | Raise e => Raise e
  end.
Proof.
  unfold iteration. destruct err as [e|]; simpl; [|reflexivity].
  destruct (fuel <=? length evs)%nat; reflexivity.
Qed.

Lemma iteration_done {A : Type} (fuel : nat) (err : option exn) :
  @iteration A (S fuel) [] err =
  match err with Some e => Raise e | None => Ok [] end.
Proof. destruct err; reflexivity. Qed.

Lemma pump_steps (k : Kind) (ns : NormState) (items : list (result Raw)) :
  steps_to (pump k ns items) (fst (item_events k ns items))
           (snd (item_events k ns items)).
Proof.
  revert ns. induction items as [|[chunk|e] items IH]; intros ns; simpl.
  - destruct (norm_end k ns) as [|ev pending]; simpl; eauto.
  - destruct (norm_chunk k ns chunk) as [[|ev pending] ns']; simpl; [apply IH | eauto].
  - reflexivity.
Qed.

(** A step of a generator whose stream is open leaves the trace as it is. *)
Lemma anext_open (g : AsyncGen) (evs : list Norm) (err : option exn)
    (tr : list Event) :
  script g = Some (evs, err) ->
  exists r, anext self g tr = (r, tr) /\ steps_to r evs err.
Proof.
  destruct g as [r|r|k params pending|k items ns [|ev pending]|[|ev pending]|]; simpl;
    try discriminate; intros [= <- <-]; eexists; (split; [reflexivity|]); simpl; eauto.
  apply pump_steps.
Qed.

Lemma collect_open (fuel : nat) (g : AsyncGen) (evs : list Norm) (err : option exn)
    (tr : list Event) :
  script g = Some (evs, err) ->
  collect fuel self g tr = (iteration fuel evs err, tr).
Proof.
  revert g evs. induction fuel as [|fuel IH]; intros g evs Hg.
  - destruct err; reflexivity.
  - destruct (anext_open g evs err tr Hg) as (r & Hr & Hs).
    rewrite collect_S, Hr. destruct evs as [|ev rest]; simpl in Hs.
    + rewrite iteration_done. destruct err as [e|]; rewrite Hs; reflexivity.
    + destruct Hs as (g' & -> & Hg'). rewrite (IH g' rest Hg'), iteration_cons.
      destruct (iteration fuel rest err); reflexivity.
Qed.

(** Iterating a generator whose payload is built: the start events, then
    what opening the stream gives; the calls of the opening are made by the
    step that follows the last start event. *)
Lemma collect_started (fuel : nat) (k : Kind) (params : dict) (pending : list Norm)
    (tr : list Event) :
  collect fuel self (Started k params pending) tr =
  (iteration fuel (pending ++ fst (fst (opening self k params)))%list
             (snd (fst (opening self k params))),
   if (fuel <=? length pending)%nat then tr
   else (tr ++ snd (opening self k params))%list).
Proof.
  revert pending. induction fuel as [|fuel IH]; intros pending.
  - destruct (snd (fst (opening self k params))); reflexivity.
  - rewrite collect_S. destruct pending as [|ev rest].
    + simpl. unfold resume, opening.
      unfold mbind at 1, IO_bind at 1.
      destruct (_get_client self) as [client|e] eqn:Hc.
      * rewrite (open_stream_calls k params client tr Hc).
        destruct (provider_stream (stream_endpoint k params) client params)
          as [stream|e]; [|reflexivity].
        unfold mbind, IO_bind, lift.
        destruct (iterate stream) as [items|e]; [|reflexivity].
        pose proof (pump_steps k (norm_init k) items) as Hs.
        destruct (item_events k (norm_init k) items) as [[|ev rest] err]; simpl in *.
        -- rewrite iteration_done. destruct err as [e|]; rewrite Hs; reflexivity.
        -- destruct Hs as (g' & -> & Hg').
           rewrite (collect_open fuel g' rest err _ Hg'), iteration_cons.
           destruct (iteration fuel rest err); reflexivity.
      * rewrite (open_stream_fails k params e tr Hc). simpl.
        rewrite app_nil_r. reflexivity.
    + simpl anext. unfold resume, mret, IO_ret. rewrite (IH rest).
      change ((ev :: rest) ++ fst (fst (opening self k params)))%list
        with (ev :: (rest ++ fst (fst (opening self k params))))%list.
      rewrite iteration_cons.
      destruct (iteration fuel _ _); reflexivity.
Qed.

Lemma collect_fresh (fuel : nat) (request : Request) (params : dict) (tr : list Event) :
  _get_params request = Ok params ->
  collect fuel self (stream_of_request request) tr =
  collect fuel self (Started (kind_of request) params (norm_start (kind_of request))) tr.
Proof.
  intros Hp. destruct fuel as [|fuel]; [reflexivity|].
  rewrite !collect_S, (anext_fresh_started request params tr Hp). reflexivity.
Qed.

(** Iterating the generator of a request whose payload is built. *)
Lemma collect_stream (fuel : nat) (request : Request) (params : dict) (tr : list Event) :
  _get_params request = Ok params ->
  collect fuel self (stream_of_request request) tr =
  (iteration fuel
     (norm_start (kind_of request) ++ fst (fst (opening self (kind_of request) params)))%list
     (snd (fst (opening self (kind_of request) params))),
   if (fuel <=? length (norm_start (kind_of request)))%nat then tr
   else (tr ++ snd (opening self (kind_of request) params))%list).
Proof.
  intros Hp. rewrite (collect_fresh fuel request params tr Hp). apply collect_started.
Qed.


Lemma opening_calls (k : Kind) (params : dict) (client : Fireworks) :
  _get_client self = Ok client ->
  snd (opening self k params) = [Call client (stream_endpoint k params) params].
Proof. intros Hc. unfold opening. rewrite Hc. reflexivity. Qed.

Lemma opening_refused (k : Kind) (params : dict) (client : Fireworks) (e : exn) :
  _get_client self = Ok client ->
  provider_stream (stream_endpoint k params) client params = Raise e ->
  fst (opening self k params) = ([], Some e).
Proof. intros Hc Hs. unfold opening. rewrite Hc, Hs. reflexivity. Qed.

Lemma opening_not_iterable (k : Kind) (params : dict) (client : Fireworks) :
  _get_client self = Ok client ->
  provider_stream (stream_endpoint k params) client params = Ok NotIterable ->
  fst (opening self k params) = ([], Some (TypeError "object is not iterable")).
Proof. intros Hc Hs. unfold opening. rewrite Hc, Hs. reflexivity. Qed.

Lemma opening_items (k : Kind) (params : dict) (client : Fireworks)
    (items : list (result Raw)) :
  _get_client self = Ok client ->
  provider_stream (stream_endpoint k params) client params = Ok (Iterable items) ->
  fst (opening self k params) = item_events k (norm_init k) items.
Proof. intros Hc Hs. unfold opening. rewrite Hc, Hs. reflexivity. Qed.

Lemma item_events_delivered (k : Kind) (ns : NormState) (chunks : list Raw) :
  item_events k ns (map Ok chunks) = (events_of k ns chunks, None).
Proof.
  revert ns. induction chunks as [|chunk chunks IH]; intros ns; simpl; [reflexivity|].
  rewrite IH. reflexivity.
Qed.

Lemma item_events_failed (k : Kind) (ns : NormState) (chunks : list Raw) (e : exn)
    (rest : list (result Raw)) :
  item_events k ns (map Ok chunks ++ Raise e :: rest)%list
  = (events_before k ns chunks, Some e).
Proof.
  revert ns. induction chunks as [|chunk chunks IH]; intros ns; simpl; [reflexivity|].
  rewrite IH. reflexivity.
Qed.

End CallDispatcher.

Section DispatchProperties.
Context `{Collaborators}.

(** C6: whenever a completion request is built into a payload, the request
    has no media and the payload has [prompt] and no [messages]; when some
    content segment is media the builder raises its assertion, and both
    dispatch paths raise it with no provider call added to the trace. A
    media-free request makes the builder raise only when rendering the
    prompt raises or on an unsupported response format. *)
Theorem completion_payload_shape (r : CompletionRequest) :
  sampling_options_only ->
  match _get_params (Completion r) with
  | Ok payload =>
      request_has_media (Completion r) = false /\
      (exists p, payload !! "prompt" = Some (VStr p)) /\
      payload !! "messages" = None
  | Raise e =>
      if request_has_media (Completion r) then
        e = AssertionError media_message /\
        forall self tr,
          _nonstream_completion self r tr = (Raise e, tr) /\
          anext self (_stream_completion r) tr = (Raise e, tr)
      else completion_request_to_prompt r = Raise e \/
           ~ format_supported (c_response_format r)
  end.
Proof.
  intros Hlaw.
  destruct (request_has_media (Completion r)) eqn:Hm.
  - assert (Hi : input_dict_of (Completion r) = Raise (AssertionError media_message))
      by (unfold input_dict_of; rewrite Hm; reflexivity).
    assert (Hp : _get_params (Completion r) = Raise (AssertionError media_message))
      by (unfold _get_params; rewrite Hi; reflexivity).
    rewrite Hp. split; [reflexivity|]. intros self tr. split.
    + apply nonstream_completion_fails. left. exact Hp.
    + apply (anext_fresh_fails self (Completion r)). exact Hp.
  - assert (Hr : render (Completion r) = Some (completion_request_to_prompt r))
      by (unfold render; rewrite Hm; reflexivity).
    destruct (_get_params (Completion r)) as [payload|e] eqn:Hp.
    + destruct (completion_request_to_prompt r) as [p|e].
      * destruct (get_params_prompt _ _ _ Hlaw (rendered_prompt_render _ _ Hr) Hp)
          as [Hpr Hms]. eauto.
      * pose proof (input_dict_of_render_raise _ _ Hr) as Hi.
        destruct (get_params_inv _ _ Hp) as (d & o & Hd & _). congruence.
    + destruct (get_params_raise _ _ Hp) as [Hi|Hf]; [|right; exact Hf].
      left. destruct (completion_request_to_prompt r) as [p|e'].
      * rewrite (input_dict_of_rendered _ _ (rendered_prompt_render _ _ Hr)) in Hi.
        discriminate.
      * rewrite (input_dict_of_render_raise _ _ Hr) in Hi. congruence.
Qed.

(** C2: for a chat request with a built payload and a resolved client, the
    non-streaming dispatcher makes its one call on the structured-messages
    endpoint when the payload has [messages] and on the prompt endpoint
    otherwise; the streaming dispatcher makes no call while the normaliser
    hands over its start events, and the step after them opens the stream
    with one call chosen in the same way, the only call of the iteration;
    and the payload has [messages] exactly when the request has media. *)
Theorem chat_dispatch_endpoint (self : FireworksInferenceAdapter)
    (r : ChatCompletionRequest) (payload : dict) (client : Fireworks)
    (tr : list Event) :
  _get_params (Chat r) = Ok payload ->
  _get_client self = Ok client ->
  snd (_nonstream_chat_completion self r tr) =
    (tr ++ [Call client (if contains payload "messages"
                         then chat_completions_acreate
                         else completion_acreate) payload])%list /\
  (forall fuel,
     snd (collect fuel self (_stream_chat_completion r) tr) =
     if (fuel <=? length (norm_start KChat))%nat then tr
     else (tr ++ [Call client (if contains payload "messages"
                               then chat_completions_acreate
                               else completion_create) payload])%list) /\
  (sampling_options_only ->
   contains payload "messages" = request_has_media (Chat r)).
Proof.
  intros Hp Hc. split; [|split].
  - rewrite (nonstream_chat_calls self r payload client tr Hp Hc). reflexivity.
  - intros fuel. change (_stream_chat_completion r) with (stream_of_request (Chat r)).
    rewrite (collect_stream self fuel (Chat r) payload tr Hp).
    simpl. rewrite (opening_calls self KChat payload client Hc). reflexivity.
  - intros Hlaw. apply chat_messages_key; assumption.
Qed.

(** C7: a configured API key is the client's key whatever the request
    context holds; without one, a non-empty key from the request context is
    the client's key; with neither, [_get_client] raises the error whose
    message names the header and the field to supply, and a non-streaming
    [completion] raises with no provider call added to the trace, the error
    being that one once the model is resolved and the payload built. *)
Theorem credential_resolution (self : FireworksInferenceAdapter) :
  (forall k, api_key (config self) = Some k ->
     _get_client self = Ok {| client_api_key := k |}) /\
  (forall pd k, api_key (config self) = None ->
     request_provider_data self = Some pd ->
     fireworks_api_key pd = Some k -> k <> "" ->
     _get_client self = Ok {| client_api_key := k |}) /\
  (api_key (config self) = None ->
   (forall pd, request_provider_data self = Some pd ->
      truthy_str (fireworks_api_key pd) = false) ->
   _get_client self = Raise (ValueError missing_key_message) /\
   (exists a b c,
      missing_key_message =
      a ++ "X-LlamaStack-ProviderData" ++ b ++ "fireworks_api_key" ++ c) /\
   forall model_id content sp fmt stream logprobs tr,
     truthy_bool stream = false ->
     exists e,
       completion self model_id content sp fmt stream logprobs tr = (Raise e, tr) /\
       forall m payload,
         model_store_get_model model_id = Ok m ->
         _get_params (Completion
           {| c_model := provider_resource_id m; c_content := content;
              c_sampling_params := sp; c_response_format := fmt;
              c_stream := stream; c_logprobs := logprobs |}) = Ok payload ->
         e = ValueError missing_key_message).
Proof.
  split; [|split].
  - intros k Hk. unfold _get_client. rewrite Hk. reflexivity.
  - intros pd k Hk Hpd Hf Hne. unfold _get_client. rewrite Hk, Hpd, Hf.
    destruct k; [congruence | reflexivity].
  - intros Hk Hnone.
    assert (Hc : _get_client self = Raise (ValueError missing_key_message)).
    { unfold _get_client. rewrite Hk.
      destruct (request_provider_data self) as [pd|]; [|reflexivity].
      rewrite (Hnone pd eq_refl). reflexivity. }
    split; [exact Hc|]. split.
    { exists "Pass Fireworks API Key in the header ", (" as { " ++ dquote),
        (dquote ++ ": <your api key>}"). reflexivity. }
    intros model_id content sp fmt stream logprobs tr Hs.
    unfold completion. unfold mbind at 1, IO_bind at 1, lift at 1.
    destruct (model_store_get_model model_id) as [m|e] eqn:Hm.
    + rewrite Hs. unfold mbind, IO_bind.
      match goal with |- context [_nonstream_completion self ?r tr] => set (req := r) end.
      destruct (_get_params (Completion req)) as [payload|e] eqn:Hp.
      * exists (ValueError missing_key_message). split.
        -- rewrite (nonstream_completion_fails self req (ValueError missing_key_message) tr);
             [reflexivity|]. right. eauto.
        -- reflexivity.
      * exists e. split.
        -- rewrite (nonstream_completion_fails self req e tr); [reflexivity|].
           left. exact Hp.
        -- intros m' payload [= <-]. fold req. congruence.
    + exists e. split; [reflexivity|]. intros m' payload Hm'. discriminate.
Qed.

(** C9: [embeddings] raises [NotImplementedError] on every argument, and
    the trace of provider calls is left as it was. *)
Theorem embeddings_not_supported (self : FireworksInferenceAdapter)
    (model_id : string) (contents : list (InterleavedTextMedia Image))
    (tr : list Event) :
  embeddings self model_id contents tr = (Raise NotImplementedError, tr).
Proof. reflexivity. Qed.

End DispatchProperties.

Section Scenarios.
Context `{Collaborators}.

Lemma hello_payload_merge (resolved : string) (options : dict) :
  update (<["stream" := VBool false]>
            (update {[ "model" := VStr resolved ]} {[ "prompt" := VStr "Hello" ]}))
         (setdefault "max_tokens" (VInt 512) options)
  = options ∪ hello_payload resolved.
Proof.
  apply map_eq. intros k.
  rewrite lookup_update, lookup_setdefault, lookup_union.
  assert (Hbase : k <> "max_tokens" ->
            (<["stream" := VBool false]>
               (update {[ "model" := VStr resolved ]} {[ "prompt" := VStr "Hello" ]})) !! k
            = hello_payload resolved !! k).
  { intros Hk. unfold update, hello_payload.
    repeat (rewrite ?lookup_union, ?lookup_insert, ?lookup_singleton, ?lookup_empty;
            repeat case_decide; subst; simpl); try congruence; reflexivity. }
  destruct (decide ("max_tokens" = k)) as [<-|Hk].
  - destruct (options !! "max_tokens"); reflexivity.
  - rewrite Hbase by congruence.
    destruct (options !! k); destruct (hello_payload resolved !! k); reflexivity.
Qed.

(** C8: a completion of the content "Hello" with the default sampling
    parameters, no response format and no streaming builds the payload
    with the resolved model, the prompt "Hello", [stream = false] and
    [max_tokens = 512], together with the options that the sampling helper
    emits for the default parameters, which come on top; the dispatcher
    makes one call on the prompt endpoint and returns its normalised
    response. The renderer is taken to render the content as itself, with
    or without the leading marker. *)
Theorem scenario_completion_hello (self : FireworksInferenceAdapter)
    (model_id : string) (m : Model) (client : Fireworks) (raw : Raw)
    (logprobs : option LogProbConfig) (tr : list Event) :
  let request :=
    {| c_model := provider_resource_id m;
       c_content := Single (TextItem "Hello");
       c_sampling_params := Some SamplingParams_default;
       c_response_format := None;
       c_stream := Some false;
       c_logprobs := logprobs |} in
  let payload :=
    get_sampling_options (Some SamplingParams_default)
      ∪ hello_payload (provider_resource_id m) in
  model_store_get_model model_id = Ok m ->
  completion_request_to_prompt request = Ok "Hello" \/
  completion_request_to_prompt request = Ok (BOS ++ "Hello") ->
  _get_client self = Ok client ->
  provider_response completion_acreate client payload = Ok raw ->
  _get_params (Completion request) = Ok payload /\
  completion self model_id (Single (TextItem "Hello")) (Some SamplingParams_default)
             None (Some false) logprobs tr
  = (Ok (inl (process_completion_response raw)),
     (tr ++ [Call client completion_acreate payload])%list).
Proof.
  intros request payload Hm Hr Hc Hraw.
  assert (Hp : _get_params (Completion request) = Ok payload).
  { unfold _get_params, input_dict_of, _build_options. simpl.
    destruct Hr as [-> | ->]; simpl;
      unfold payload; rewrite <- hello_payload_merge; reflexivity. }
  split; [exact Hp|].
  unfold completion. unfold mbind at 1, IO_bind at 1, lift at 1. rewrite Hm. simpl.
  fold request. unfold mbind, IO_bind.
  rewrite (nonstream_completion_calls self request payload client tr Hp Hc).
  rewrite Hraw. reflexivity.
Qed.


End Scenarios.

(** * The adapter on concrete requests *)

Section Concrete.
Import Reference.

Lemma reference_sampling_options_only : sampling_options_only.
Proof.
  intros sp k Hk. apply list_elem_of_In in Hk. simpl in Hk.
  destruct sp as [[t p m]|]; [|apply lookup_empty].
  destruct t, p, m;
    destruct Hk as [<-|[<-|[<-|[<-|[<-|[]]]]]]; reflexivity.
Qed.

Lemma upstream_sampling_options_only :
  @sampling_options_only Upstream.types Upstream.collaborators.
Proof.
  assert (Hne : forall b k' v (d : dict) k,
            k <> k' -> Upstream.set_if b k' v d !! k = d !! k).
  { intros b k' v d k Hk. unfold Upstream.set_if.
    destruct v as [v|]; [|reflexivity]. destruct b; [|reflexivity].
    apply lookup_insert_ne. congruence. }
  intros sp k Hk. apply list_elem_of_In in Hk. simpl in Hk.
  destruct sp as [p|]; [|apply lookup_empty].
  simpl. unfold Upstream.upstream_get_sampling_options.
  destruct Hk as [<-|[<-|[<-|[<-|[<-|[]]]]]];
    rewrite !Hne by discriminate; apply lookup_empty.
Qed.

Example hello_params :
  _get_params (Completion hello) = Ok (hello_payload "fireworks/llama-v3p1-8b-instruct").
Proof. vm_compute. reflexivity. Qed.

Example text_chat_params :
  _get_params (Chat (chat_of [text_message] true)) =
  Ok {[ "model" := VStr "fireworks/llama-v3p2-11b-vision-instruct";
        "prompt" := VStr "<user>Hi";
        "stream" := VBool true;
        "max_tokens" := VInt 512 ]}.
Proof. vm_compute. reflexivity. Qed.

Example image_chat_params :
  exists payload ms,
    _get_params (Chat (chat_of [text_message; image_message] false)) = Ok payload /\
    payload !! "messages" = Some (VList ms) /\ length ms = 2 /\
    payload !! "prompt" = None.
Proof. eexists _, _. vm_compute. repeat split. Qed.

Example image_completion_raises :
  _get_params (Completion
    {| c_model := "m"; c_content := Segments [TextItem "a"; ImageMedia "u"];
       c_sampling_params := None; c_response_format := None;
       c_stream := None; c_logprobs := None |})
  = Raise (AssertionError media_message).
Proof. reflexivity. Qed.

Example unknown_format_raises :
  _build_options None (Some {| type := "xml"; json_schema := None; bnf := None |})
  = Raise (ValueError "Unknown response format xml").
Proof. reflexivity. Qed.

Example text_chat_streams_on_prompt_endpoint :
  exists payload,
    collect 5 adapter_with_key (_stream_chat_completion (chat_of [text_message] true)) []
    = (Ok ["chunk 1"; "chunk 2"],
       [Call {| client_api_key := "static-key" |} completion_create payload]) /\
    contains payload "messages" = false.
Proof. eexists. vm_compute. split; reflexivity. Qed.

Example image_chat_calls_messages_endpoint :
  exists payload,
    _nonstream_chat_completion adapter_with_header (chat_of [image_message] false) []
    = (Ok "response",
       [Call {| client_api_key := "header-key" |} chat_completions_acreate payload]) /\
    contains payload "messages" = true.
Proof. eexists. vm_compute. split; reflexivity. Qed.

Example streaming_without_key :
  completion adapter_without_key "llama3_1_8b_instruct" (Single (TextItem "Hello")) None None
             (Some true) None []
  = (Ok (inr (_stream_completion
       {| c_model := "fireworks/llama-v3p1-8b-instruct"; c_content := Single (TextItem "Hello");
          c_sampling_params := None; c_response_format := None;
          c_stream := Some true; c_logprobs := None |})), []) /\
  anext adapter_without_key
    (_stream_completion
       {| c_model := "fireworks/llama-v3p1-8b-instruct"; c_content := Single (TextItem "Hello");
          c_sampling_params := None; c_response_format := None;
          c_stream := Some true; c_logprobs := None |}) []
  = (Raise (ValueError missing_key_message), []).
Proof. split; reflexivity. Qed.

End Concrete.

(** * The theorems at concrete inputs *)

Section Witnesses.
Import Reference.

Lemma chat_payload_shape_witness :
  sampling_options_only /\
  (exists payload ms,
     _get_params (Chat (chat_of [image_message] false)) = Ok payload /\
     payload !! "messages" = Some (VList ms) /\ payload !! "prompt" = None) /\
  (exists payload p,
     _get_params (Chat (chat_of [text_message] false)) = Ok payload /\
     payload !! "prompt" = Some (VStr p) /\ payload !! "messages" = None).
Proof.
  split; [exact reference_sampling_options_only|]. split.
  - generalize (chat_payload_shape (chat_of [image_message] false)
                  reference_sampling_options_only).
    destruct (_get_params (Chat (chat_of [image_message] false))) as [payload|e].
    + intros [(ms & _ & Hms) Hp]. exists payload, ms.
      exact (conj eq_refl (conj Hms Hp)).
    + intros [[_ Hr]|[[Hm _]|Hf]];
        [vm_compute in Hr; discriminate | vm_compute in Hm; discriminate
        | destruct Hf; exact I].
  - generalize (chat_payload_shape (chat_of [text_message] false)
                  reference_sampling_options_only).
    destruct (_get_params (Chat (chat_of [text_message] false))) as [payload|e].
    + intros [(p & Hp) Hms]. exists payload, p.
      exact (conj eq_refl (conj Hp Hms)).
    + intros [[Hm _]|[[_ Hr]|Hf]];
        [vm_compute in Hm; discriminate | vm_compute in Hr; discriminate
        | destruct Hf; exact I].
Defined.

Lemma chat_dispatch_endpoint_witness :
  let request := Upstream.chat_of [text_message] true in
  let payload : dict :=
    {[ "model" := VStr "fireworks/llama-v3p2-11b-vision-instruct";
       "prompt" := VStr "<user>Hi"; "stream" := VBool true;
       "max_tokens" := VInt 512; "top_p" := VFloat (Qmake 19 20) ]} in
  let client := {| client_api_key := "static-key" |} in
  @_get_params Upstream.types Upstream.collaborators (Chat request) = Ok payload /\
  _get_client adapter_with_key = Ok client /\
  snd (@_nonstream_chat_completion Upstream.types Upstream.collaborators
         adapter_with_key request []) =
    [Call client completion_acreate payload] /\
  snd (@collect Upstream.types Upstream.collaborators 1 adapter_with_key
         (_stream_chat_completion request) []) = [] /\
  snd (@collect Upstream.types Upstream.collaborators 2 adapter_with_key
         (_stream_chat_completion request) []) =
    [Call client completion_create payload] /\
  contains payload "messages" = request_has_media (Chat request).
Proof.
  intros request payload client.
  assert (Hp : @_get_params Upstream.types Upstream.collaborators (Chat request)
               = Ok payload) by (vm_compute; reflexivity).
  assert (Hc : _get_client adapter_with_key = Ok client) by reflexivity.
  destruct (@chat_dispatch_endpoint Upstream.types Upstream.collaborators
              adapter_with_key request payload client [] Hp Hc) as (H1 & H2 & H3).
  exact (conj Hp (conj Hc (conj H1 (conj (H2 1) (conj (H2 2)
           (H3 upstream_sampling_options_only)))))).
Defined.

Lemma prompt_bos_stripped_witness :
  let request := Chat (chat_of [text_message] false) in
  sampling_options_only /\
  rendered_prompt request = Some (BOS ++ "<user>Hi") /\
  format_supported (request_response_format request) /\
  exists payload, _get_params request = Ok payload /\
                  payload !! "prompt" = Some (VStr "<user>Hi").
Proof.
  intros request.
  assert (Hr : rendered_prompt request = Some (BOS ++ "<user>Hi")) by reflexivity.
  assert (Hf : format_supported (request_response_format request)) by exact I.
  split; [exact reference_sampling_options_only|].
  split; [exact Hr|]. split; [exact Hf|].
  destruct (prompt_bos_stripped request _ reference_sampling_options_only Hr Hf)
    as (payload & Hp & Hq & _).
  exists payload. split; [exact Hp | exact (Hq _ eq_refl)].
Defined.

Lemma build_options_response_format_witness :
  sampling_options_only /\
  (exists options,
     _build_options (Some spec_default)
       (Some (JsonSchemaResponseFormat (VDict {[ "type" := VStr "object" ]}))) = Ok options /\
     options !! "response_format" =
     Some (VDict {[ "type" := VStr "json_object";
                    "schema" := VDict {[ "type" := VStr "object" ]} ]})) /\
  (exists options,
     _build_options (Some spec_default)
       (Some (GrammarResponseFormat (VStr "root ::= 'a'"))) = Ok options /\
     options !! "response_format" =
     Some (VDict {[ "type" := VStr "grammar"; "grammar" := VStr "root ::= 'a'" ]})) /\
  (exists options,
     _build_options (Some spec_default) None = Ok options /\
     options !! "response_format" = None) /\
  _build_options (Some spec_default)
    (Some {| type := "regex"; json_schema := None; bnf := None |})
  = Raise (ValueError "Unknown response format regex").
Proof.
  split; [exact reference_sampling_options_only|].
  destruct (@build_options_response_format types collaborators (Some spec_default)
              reference_sampling_options_only) as (Hj & Hg & Hn & Hu).
  split; [apply Hj; reflexivity|].
  split; [apply Hg; reflexivity|].
  split; [exact Hn|].
  apply (Hu {| type := "regex"; json_schema := None; bnf := None |}); discriminate.
Defined.

Lemma build_options_max_tokens_witness :
  format_supported None /\
  (exists options,
     _build_options (Some spec_default) None = Ok options /\
     options !! "max_tokens" = Some (VInt 512)) /\
  (exists options,
     _build_options
       (Some {| temperature := None; top_p := None; max_tokens := Some 64%Z |}) None
     = Ok options /\
     options !! "max_tokens" = Some (VInt 64)).
Proof.
  split; [exact I|]. split.
  - destruct (@build_options_max_tokens types collaborators (Some spec_default) None I)
      as (options & Ho & Hd & _).
    exists options. split; [exact Ho | apply Hd; reflexivity].
  - destruct (@build_options_max_tokens types collaborators
                (Some {| temperature := None; top_p := None; max_tokens := Some 64%Z |})
                None I) as (options & Ho & _ & He).
    exists options. split; [exact Ho | apply He; reflexivity].
Defined.

Lemma completion_payload_shape_witness :
  let with_image :=
    {| c_model := "fireworks/llama-v3p2-11b-vision-instruct";
       c_content := Segments [TextItem "Describe "; ImageMedia "http://example.org/cat.png"];
       c_sampling_params := Some spec_default; c_response_format := None;
       c_stream := Some false; c_logprobs := None |} in
  sampling_options_only /\
  (exists payload p,
     _get_params (Completion hello) = Ok payload /\
     payload !! "prompt" = Some (VStr p) /\ payload !! "messages" = None) /\
  _get_params (Completion with_image) = Raise (AssertionError media_message) /\
  _nonstream_completion adapter_with_key with_image []
    = (Raise (AssertionError media_message), []) /\
  anext adapter_with_key (_stream_completion with_image) []
    = (Raise (AssertionError media_message), []).
Proof.
  intros with_image. split; [exact reference_sampling_options_only|]. split.
  - generalize (completion_payload_shape hello reference_sampling_options_only).
    destruct (_get_params (Completion hello)) as [payload|e].
    + intros (_ & (p & Hp) & Hms). exists payload, p.
      exact (conj eq_refl (conj Hp Hms)).
    + intros [Hr|Hf]; [vm_compute in Hr; discriminate | destruct Hf; exact I].
  - generalize (completion_payload_shape with_image reference_sampling_options_only).
    assert (Hp : _get_params (Completion with_image) = Raise (AssertionError media_message))
      by reflexivity.
    rewrite Hp. intros [_ Hd]. split; [reflexivity|]. apply Hd.
Defined.

Lemma credential_resolution_witness :
  _get_client adapter_with_key = Ok {| client_api_key := "static-key" |} /\
  _get_client adapter_with_header = Ok {| client_api_key := "header-key" |} /\
  _get_client adapter_without_key = Raise (ValueError missing_key_message) /\
  completion adapter_without_key "llama3_1_8b_instruct" (Single (TextItem "Hello")) (Some spec_default)
             None (Some false) None []
  = (Raise (ValueError missing_key_message), []).
Proof.
  split; [|split; [|split]].
  - apply (proj1 (credential_resolution adapter_with_key)). reflexivity.
  - apply (proj1 (proj2 (credential_resolution adapter_with_header))
             {| fireworks_api_key := Some "header-key" |}); try reflexivity.
    discriminate.
  - apply (proj2 (proj2 (credential_resolution adapter_without_key)));
      [reflexivity | discriminate].
  - destruct (proj2 (proj2 (credential_resolution adapter_without_key)) eq_refl)
      as (_ & _ & Hc); [discriminate|].
    destruct (Hc "llama3_1_8b_instruct" (Single (TextItem "Hello")) (Some spec_default) None
                 (Some false) None [] eq_refl) as (e & He & Hm).
    rewrite He.
    rewrite (Hm {| provider_resource_id := "fireworks/llama-v3p1-8b-instruct" |}
                (hello_payload "fireworks/llama-v3p1-8b-instruct") eq_refl);
      [reflexivity | vm_compute; reflexivity].
Defined.

Lemma scenario_completion_hello_witness :
  let payload : dict :=
    <["top_p" := VFloat (Qmake 19 20)]> (hello_payload "fireworks/llama-v3p1-8b-instruct") in
  let client := {| client_api_key := "header-key" |} in
  @_get_params Upstream.types Upstream.collaborators (Completion Upstream.hello)
  = Ok payload /\
  @completion Upstream.types Upstream.collaborators adapter_with_header
    "llama3_1_8b_instruct" (Single (TextItem "Hello")) (Some Upstream.default_params)
    None (Some false) None []
  = (Ok (inl "response"), [Call client completion_acreate payload]).
Proof.
  exact (@scenario_completion_hello Upstream.types Upstream.collaborators
           adapter_with_header "llama3_1_8b_instruct"
           {| provider_resource_id := "fireworks/llama-v3p1-8b-instruct" |}
           {| client_api_key := "header-key" |} "response" None []
           eq_refl (or_intror eq_refl) eq_refl eq_refl).
Defined.

Lemma scenario_completion_hello_counterexample :
  exists payload,
    @_get_params Upstream.types Upstream.collaborators (Completion Upstream.hello)
    = Ok payload /\
    payload !! "top_p" = Some (VFloat (Qmake 19 20)) /\
    payload <> hello_payload "fireworks/llama-v3p1-8b-instruct".
Proof.
  eexists. split; [vm_compute; reflexivity|]. split; [vm_compute; reflexivity|].
  intros Heq. apply (f_equal (fun d : dict => d !! "top_p")) in Heq.
  vm_compute in Heq. discriminate.
Qed.



End Witnesses.

(** * Further properties of the option mapper and the request builder *)

Section BuilderExtras.
Context `{Collaborators}.

Lemma build_options_lookup (sp : option SamplingParams) (fmt : option ResponseFormat)
    (options : dict) (k : string) :
  _build_options sp fmt = Ok options ->
  k <> "response_format" ->
  options !! k =
  if decide ("max_tokens" = k)
  then Some (default (VInt 512) (get_sampling_options sp !! "max_tokens"))
  else get_sampling_options sp !! k.
Proof.
  intros Hb Hk. destruct (build_options_inv _ _ _ Hb) as [_ Hl].
  rewrite (Hl k Hk). apply lookup_setdefault.
Qed.

Lemma build_options_format_key (sp : option SamplingParams)
    (fmt : option ResponseFormat) (options : dict) :
  _build_options sp fmt = Ok options ->
  match fmt with
  | None => options !! "response_format" = get_sampling_options sp !! "response_format"
  | Some f =>
      (type f = "json_schema" /\
       exists S, json_schema f = Some S /\
         options !! "response_format" =
         Some (VDict {[ "type" := VStr "json_object"; "schema" := S ]})) \/
      (type f = "grammar" /\
       exists G, bnf f = Some G /\
         options !! "response_format" =
         Some (VDict {[ "type" := VStr "grammar"; "grammar" := G ]}))
  end.
Proof.
  unfold _build_options. destruct fmt as [f|].
  - destruct (String.eqb_spec (type f) "json_schema") as [Ht|Ht].
    + destruct (json_schema f) as [S|]; [|discriminate].
      intros [= <-]. left. split; [exact Ht|]. exists S. split; [reflexivity|].
      apply lookup_insert_eq.
    + destruct (String.eqb_spec (type f) "grammar") as [Hg|Hg]; [|discriminate].
      destruct (bnf f) as [G|]; [|discriminate].
      intros [= <-]. right. split; [exact Hg|]. exists G. split; [reflexivity|].
      apply lookup_insert_eq.
  - intros [= <-]. rewrite lookup_setdefault. rewrite decide_False by discriminate.
    reflexivity.
Qed.

(** X1: the option mapper passes every sampling option through unchanged,
    [max_tokens] included; only a [response_format] of the sampling helper
    is replaced, and only when a response format is supplied. *)
Theorem build_options_passthrough (sp : option SamplingParams)
    (fmt : option ResponseFormat) (options : dict) (k : string) (v : value) :
  _build_options sp fmt = Ok options ->
  get_sampling_options sp !! k = Some v ->
  (k = "response_format" -> fmt = None) ->
  options !! k = Some v.
Proof.
  intros Hb Hv Hk. destruct (decide (k = "response_format")) as [->|Hne].
  - rewrite (Hk eq_refl) in Hb. pose proof (build_options_format_key _ _ _ Hb) as Hf.
    simpl in Hf. congruence.
  - rewrite (build_options_lookup _ _ _ k Hb Hne).
    destruct (decide ("max_tokens" = k)) as [<-|_]; [rewrite Hv; reflexivity | exact Hv].
Qed.

(** X2: the keys of the mapped options are exactly the keys of the
    sampling options, [max_tokens], and [response_format] when a response
    format is supplied. *)
Theorem build_options_keys (sp : option SamplingParams)
    (fmt : option ResponseFormat) (options : dict) (k : string) :
  _build_options sp fmt = Ok options ->
  (is_Some (options !! k) <->
   is_Some (get_sampling_options sp !! k) \/ k = "max_tokens" \/
   (k = "response_format" /\ fmt <> None)).
Proof.
  intros Hb. destruct (decide (k = "response_format")) as [->|Hne].
  - pose proof (build_options_format_key _ _ _ Hb) as Hf. destruct fmt as [f|].
    + split; [intros _; right; right; split; [reflexivity | discriminate]|].
      intros _. destruct Hf as [(_ & S & _ & ->)|(_ & G & _ & ->)]; eauto.
    + rewrite Hf. split; [tauto|]. intros [Hs|[Hm|[_ Hn]]]; [exact Hs | discriminate | congruence].
  - rewrite (build_options_lookup _ _ _ k Hb Hne).
    destruct (decide ("max_tokens" = k)) as [<-|Hm].
    + split; [intros _; right; left; reflexivity | eauto].
    + split; [tauto|]. intros [Hs|[->|[-> _]]]; [exact Hs | congruence | congruence].
Qed.

(** The lookups of a built payload, key by key. *)
Lemma payload_lookup (request : Request) (payload : dict) :
  _get_params request = Ok payload ->
  exists input_dict options,
    input_dict_of request = Ok input_dict /\
    _build_options (request_sampling_params request)
                   (request_response_format request) = Ok options /\
    forall k, payload !! k =
      match options !! k with
      | Some v => Some v
      | None =>
          if decide ("stream" = k)
          then Some (value_of_optional_bool (request_stream request))
          else match strip_bos input_dict !! k with
               | Some v => Some v
               | None => if decide ("model" = k)
                         then Some (VStr (request_model request)) else None
               end
      end.
Proof.
  intros Hp. destruct (get_params_inv _ _ Hp) as (d & o & Hd & Ho & ->).
  exists d, o. split; [exact Hd|]. split; [exact Ho|]. intros k.
  rewrite lookup_update. destruct (o !! k); [reflexivity|].
  rewrite lookup_insert. destruct (decide ("stream" = k)); [reflexivity|].
  rewrite lookup_update. destruct (strip_bos d !! k); [reflexivity|].
  rewrite lookup_singleton. reflexivity.
Qed.

Lemma input_dict_keys (request : Request) (input_dict : dict) (k : string) :
  input_dict_of request = Ok input_dict ->
  (is_Some (strip_bos input_dict !! k) <-> k = shape_key request).
Proof.
  intros Hi.
  assert (Hd : exists v, input_dict = {[ shape_key request := v ]}).
  { unfold input_dict_of, shape_key in *. destruct request as [r|r].
    - destruct (request_has_media (Completion r)); [discriminate|].
      destruct (completion_request_to_prompt r); [|discriminate].
      injection Hi as <-. eauto.
    - destruct (request_has_media (Chat r)).
      + destruct (result_mapM convert_message_to_dict (messages r)); [|discriminate].
        injection Hi as <-. eauto.
      + destruct (chat_completion_request_to_prompt r _); [|discriminate].
        injection Hi as <-. eauto. }
  destruct Hd as [v ->].
  assert (Hs : forall d : dict, is_Some (strip_bos d !! k) <-> is_Some (d !! k)).
  { intros d. unfold strip_bos. destruct (d !! "prompt") as [[| | | |p| |]|] eqn:Hp;
      try reflexivity.
    destruct (startswith p BOS); [|reflexivity].
    destruct (decide ("prompt" = k)) as [<-|Hne].
    - rewrite lookup_insert_eq, Hp. split; eauto.
    - rewrite lookup_insert_ne by exact Hne. reflexivity. }
  rewrite Hs. destruct (decide (shape_key request = k)) as [<-|Hne].
  - rewrite lookup_singleton_eq. split; eauto.
  - rewrite lookup_singleton_ne by exact Hne. split; [intros [? [=]] | congruence].
Qed.

(** X3: a built payload has exactly the keys [model], [stream], the one key
    that holds the prompt or the messages, and the keys of the mapped
    options; nothing else is sent. *)
Theorem payload_keys (request : Request) (payload : dict) :
  _get_params request = Ok payload ->
  exists options,
    _build_options (request_sampling_params request)
                   (request_response_format request) = Ok options /\
    forall k, is_Some (payload !! k) <->
      k = "model" \/ k = "stream" \/ k = shape_key request \/ is_Some (options !! k).
Proof.
  intros Hp. destruct (payload_lookup _ _ Hp) as (d & o & Hd & Ho & Hl).
  exists o. split; [exact Ho|]. intros k. rewrite (Hl k).
  pose proof (input_dict_keys request d k Hd) as Hk.
  destruct (o !! k) as [v|]; [split; eauto 6|].
  destruct (decide ("stream" = k)) as [<-|Hs]; [split; eauto|].
  destruct (strip_bos d !! k) as [v|].
  - split; [intros _; right; right; left; apply Hk; eauto | eauto].
  - destruct (decide ("model" = k)) as [<-|Hm]; [split; eauto|].
    split; [intros [? [=]]|].
    intros [->|[->|[Hsk|[? [=]]]]]; [congruence | congruence |].
    apply Hk in Hsk. destruct Hsk as [? [=]].
Qed.

(** X4: the mapped options win the merge: every option the mapper returns
    is in the payload with the same value, even under a key the builder
    writes itself. *)
Theorem payload_options_win (request : Request) (payload options : dict)
    (k : string) (v : value) :
  _get_params request = Ok payload ->
  _build_options (request_sampling_params request)
                 (request_response_format request) = Ok options ->
  options !! k = Some v ->
  payload !! k = Some v.
Proof.
  intros Hp Ho Hv. destruct (payload_lookup _ _ Hp) as (d & o & _ & Ho' & Hl).
  rewrite Ho in Ho'. injection Ho' as <-. rewrite (Hl k), Hv. reflexivity.
Qed.

(** X5: every built payload carries [max_tokens]: the value of the
    sampling options when they have one, 512 otherwise. *)
Theorem payload_max_tokens (request : Request) (payload : dict) :
  _get_params request = Ok payload ->
  exists v, payload !! "max_tokens" = Some v /\
    (get_sampling_options (request_sampling_params request) !! "max_tokens" = None ->
       v = VInt 512) /\
    (forall w, get_sampling_options (request_sampling_params request) !! "max_tokens"
                 = Some w -> v = w).
Proof.
  intros Hp. destruct (payload_lookup _ _ Hp) as (d & o & _ & Ho & Hl).
  rewrite (Hl "max_tokens").
  rewrite (build_options_lookup _ _ _ "max_tokens" Ho) by discriminate.
  rewrite decide_True by reflexivity. eexists. split; [reflexivity|].
  split; [intros ->|intros w ->]; reflexivity.
Qed.

(** X6: when the sampling helper emits sampling options only, a built
    payload maps [model] to the model of the request and [stream] to its
    stream flag as given. *)
Theorem payload_model_stream (request : Request) (payload : dict) :
  sampling_options_only ->
  _get_params request = Ok payload ->
  payload !! "model" = Some (VStr (request_model request)) /\
  payload !! "stream" = Some (value_of_optional_bool (request_stream request)).
Proof.
  intros Hlaw Hp. destruct (payload_lookup _ _ Hp) as (d & o & Hd & Ho & Hl).
  assert (Hr : forall k, k ∈ reserved_keys -> k <> "response_format" -> o !! k = None)
    by (intros k; apply (build_options_reserved _ _ _ k Hlaw Ho)).
  split.
  - rewrite (Hl "model"), Hr; [|apply list_elem_of_In; simpl; tauto | discriminate].
    rewrite decide_False by discriminate.
    destruct (strip_bos d !! "model") as [v|] eqn:Hm; [|reflexivity].
    assert (Hk : "model" = shape_key request)
      by (apply (input_dict_keys request d "model" Hd); eauto).
    unfold shape_key in Hk. destruct request as [r|r]; [discriminate|].
    destruct (request_has_media (Chat r)); discriminate.
  - rewrite (Hl "stream"), Hr; [|apply list_elem_of_In; simpl; tauto | discriminate].
    rewrite decide_True by reflexivity. reflexivity.
Qed.

Lemma result_mapM_Forall2 {A B : Type} (f : A -> result B) (l : list A) (bs : list B) :
  result_mapM f l = Ok bs -> Forall2 (fun a b => f a = Ok b) l bs.
Proof.
  revert bs. induction l as [|a l IH]; intros bs; simpl.
  - intros [= <-]. constructor.
  - destruct (f a) as [b|e] eqn:Hf; [|discriminate]. simpl.
    destruct (result_mapM f l) as [bs'|e]; [|discriminate]. simpl.
    intros [= <-]. constructor; [exact Hf | apply IH; reflexivity].
Qed.

Lemma result_mapM_raise {A B : Type} (f : A -> result B) (l : list A) (e : exn) :
  result_mapM f l = Raise e ->
  exists l1 a l2, l = (l1 ++ a :: l2)%list /\ f a = Raise e /\
                  Forall (fun a' => exists b, f a' = Ok b) l1.
Proof.
  induction l as [|a l IH]; simpl; [discriminate|].
  destruct (f a) as [b|e'] eqn:Hf; simpl.
  - destruct (result_mapM f l) as [bs|e'']; simpl; [discriminate|].
    intros [= ->]. destruct (IH eq_refl) as (l1 & a' & l2 & -> & Ha & Hl).
    exists (a :: l1), a', l2. split; [reflexivity|]. split; [exact Ha|].
    constructor; eauto.
  - intros [= ->]. exists [], a, l. split; [reflexivity|]. split; [exact Hf|]. constructor.
Qed.

(** X7: the [messages] of a payload are the converted messages of the
    request, one per message and in the same order. *)
Theorem payload_messages_in_order (r : ChatCompletionRequest) (payload : dict)
    (ms : list value) :
  sampling_options_only ->
  _get_params (Chat r) = Ok payload ->
  payload !! "messages" = Some (VList ms) ->
  Forall2 (fun m v => convert_message_to_dict m = Ok v) (messages r) ms.
Proof.
  intros Hlaw Hp Hms.
  assert (Hc : contains payload "messages" = true) by (apply contains_true; eauto).
  rewrite (chat_messages_key r payload Hlaw Hp) in Hc.
  destruct (result_mapM convert_message_to_dict (messages r)) as [ms'|e] eqn:HM.
  - pose proof (input_dict_of_chat_media r ms' Hc HM) as Hi.
    rewrite (payload_shape_key _ _ _ "messages" Hlaw Hp Hi) in Hms by tauto.
    rewrite strip_bos_messages, lookup_singleton_eq in Hms. injection Hms as <-.
    apply result_mapM_Forall2. exact HM.
  - pose proof (input_dict_of_chat_media_raise r e Hc HM) as Hi.
    destruct (get_params_inv _ _ Hp) as (d & o & Hd & _). congruence.
Qed.

(** X8: when converting a message of a chat request with media raises, the
    builder raises that error, which is the error of the first message that
    fails; the response format is not looked at. *)
Theorem first_failing_message_raises (r : ChatCompletionRequest) (e : exn) :
  request_has_media (Chat r) = true ->
  result_mapM convert_message_to_dict (messages r) = Raise e ->
  _get_params (Chat r) = Raise e /\
  exists before m after,
    messages r = (before ++ m :: after)%list /\
    convert_message_to_dict m = Raise e /\
    Forall (fun m' => exists v, convert_message_to_dict m' = Ok v) before.
Proof.
  intros Hm HM. split.
  - unfold _get_params. rewrite (input_dict_of_chat_media_raise r e Hm HM). reflexivity.
  - apply result_mapM_raise. exact HM.
Qed.

End BuilderExtras.

(** * Further properties of the credentials and the dispatcher *)

Section DispatcherExtras.
Context `{Collaborators}.
Variable self : FireworksInferenceAdapter.

(** X10: the outcomes of a non-streaming completion. A response comes from
    exactly one call of [completion.acreate] with the built payload; a raise
    comes either before any call, from the builder or the credentials, or
    from the provider itself after that one call, and then it is the
    provider's error unchanged. *)
Theorem nonstream_completion_outcome (r : CompletionRequest) (tr : list Event) :
  match _nonstream_completion self r tr with
  | (Ok response, tr') =>
      exists client params raw,
        _get_params (Completion r) = Ok params /\ _get_client self = Ok client /\
        provider_response completion_acreate client params = Ok raw /\
        response = process_completion_response raw /\
        tr' = (tr ++ [Call client completion_acreate params])%list
  | (Raise e, tr') =>
      (fails_before_call self (Completion r) e /\ tr' = tr) \/
      exists client params,
        _get_params (Completion r) = Ok params /\ _get_client self = Ok client /\
        provider_response completion_acreate client params = Raise e /\
        tr' = (tr ++ [Call client completion_acreate params])%list
  end.
Proof.
  destruct (_get_params (Completion r)) as [params|e] eqn:Hp.
  - destruct (_get_client self) as [client|e] eqn:Hc.
    + rewrite (nonstream_completion_calls self r params client tr Hp Hc).
      destruct (provider_response completion_acreate client params) as [raw|e] eqn:Hr.
      * exists client, params, raw. auto.
      * right. exists client, params. auto.
    + rewrite (nonstream_completion_fails self r e tr); [|right; eauto].
      left. split; [right; eauto | reflexivity].
  - rewrite (nonstream_completion_fails self r e tr); [|left; exact Hp].
    left. split; [left; exact Hp | reflexivity].
Qed.

(** X11: the outcomes of a non-streaming chat completion. A response comes
    from exactly one call, on [chat.completions.acreate] when the payload
    has [messages] and on [completion.acreate] otherwise; a raise comes
    either before any call or from the provider after that one call,
    unchanged. *)
Theorem nonstream_chat_outcome (r : ChatCompletionRequest) (tr : list Event) :
  match _nonstream_chat_completion self r tr with
  | (Ok response, tr') =>
      exists client params raw,
        let ep := if contains params "messages"
                  then chat_completions_acreate else completion_acreate in
        _get_params (Chat r) = Ok params /\ _get_client self = Ok client /\
        provider_response ep client params = Ok raw /\
        response = process_chat_completion_response raw /\
        tr' = (tr ++ [Call client ep params])%list
  | (Raise e, tr') =>
      (fails_before_call self (Chat r) e /\ tr' = tr) \/
      exists client params,
        let ep := if contains params "messages"
                  then chat_completions_acreate else completion_acreate in
        _get_params (Chat r) = Ok params /\ _get_client self = Ok client /\
        provider_response ep client params = Raise e /\
        tr' = (tr ++ [Call client ep params])%list
  end.
Proof.
  destruct (_get_params (Chat r)) as [params|e] eqn:Hp.
  - destruct (_get_client self) as [client|e] eqn:Hc.
    + rewrite (nonstream_chat_calls self r params client tr Hp Hc).
      destruct (provider_response _ client params) as [raw|e] eqn:Hr.
      * exists client, params, raw. simpl. auto.
      * right. exists client, params. simpl. auto.
    + rewrite (nonstream_chat_fails self r e tr); [|right; eauto].
      left. split; [right; eauto | reflexivity].
  - rewrite (nonstream_chat_fails self r e tr); [|left; exact Hp].
    left. split; [left; exact Hp | reflexivity].
Qed.

(** X12: an error of the model store is raised by the entry points
    themselves, with no provider call, whether or not the request streams:
    model resolution is not deferred to the first iteration. *)
Theorem unknown_model_raises_at_once (model_id : string) (e : exn)
    (content : InterleavedTextMedia Image) (msgs : list (Message Image))
    (sp : option SamplingParams) (tls : option (list ToolDefinition))
    (tc : option ToolChoice) (tpf : option ToolPromptFormat)
    (fmt : option ResponseFormat) (stream : option bool)
    (lp : option LogProbConfig) (tr : list Event) :
  model_store_get_model model_id = Raise e ->
  completion self model_id content sp fmt stream lp tr = (Raise e, tr) /\
  chat_completion self model_id msgs sp tls tc tpf fmt stream lp tr = (Raise e, tr).
Proof.
  intros Hm. unfold completion, chat_completion, mbind, IO_bind, lift.
  rewrite Hm. split; reflexivity.
Qed.

(** X13: when the provider stream delivers some chunks and then raises,
    iterating the generator yields the start events of the normaliser and
    its events for the chunks delivered, in order, and then raises the
    provider's error unchanged; the stream is opened by one call, made by
    the step that follows the start events, and no other call is made. *)
Theorem stream_fails_midway (request : Request) (params : dict)
    (client : Fireworks) (chunks : list Raw) (e : exn) (rest : list (result Raw))
    (fuel : nat) (tr : list Event) :
  let k := kind_of request in
  let evs := (norm_start k ++ events_before k (norm_init k) chunks)%list in
  _get_params request = Ok params ->
  _get_client self = Ok client ->
  provider_stream (stream_endpoint k params) client params
  = Ok (Iterable (map Ok chunks ++ Raise e :: rest)%list) ->
  collect fuel self (stream_of_request request) tr =
  (if (fuel <=? length evs)%nat then Ok (take fuel evs) else Raise e,
   if (fuel <=? length (norm_start k))%nat then tr
   else (tr ++ [Call client (stream_endpoint k params) params])%list).
Proof.
  intros k evs Hp Hc Hs. rewrite (collect_stream self fuel request params tr Hp).
  fold k. rewrite (opening_calls self k params client Hc).
  rewrite (opening_items self k params client _ Hc Hs), item_events_failed.
  reflexivity.
Qed.

Lemma stream_delivers (request : Request) (params : dict)
    (client : Fireworks) (chunks : list Raw) (fuel : nat) (tr : list Event) :
  let k := kind_of request in
  _get_params request = Ok params ->
  _get_client self = Ok client ->
  provider_stream (stream_endpoint k params) client params
  = Ok (Iterable (map Ok chunks)) ->
  collect fuel self (stream_of_request request) tr =
  (Ok (take fuel (norm_start k ++ events_of k (norm_init k) chunks)%list),
   if (fuel <=? length (norm_start k))%nat then tr
   else (tr ++ [Call client (stream_endpoint k params) params])%list).
Proof.
  intros k Hp Hc Hs. rewrite (collect_stream self fuel request params tr Hp).
  fold k. rewrite (opening_calls self k params client Hc).
  rewrite (opening_items self k params client _ Hc Hs), item_events_delivered.
  reflexivity.
Qed.

(** X14: iterating a streaming completion makes one call of
    [completion.create] with the built payload, in the step that follows the
    start events of the normaliser, the first step when it has none, and
    yields the start events and then the events the normaliser emits for
    the provider's chunks, in order and none dropped, as far as the
    iteration goes. *)
Theorem stream_completion_events (r : CompletionRequest) (params : dict)
    (client : Fireworks) (chunks : list Raw) (fuel : nat) (tr : list Event) :
  _get_params (Completion r) = Ok params ->
  _get_client self = Ok client ->
  provider_stream completion_create client params = Ok (Iterable (map Ok chunks)) ->
  collect fuel self (_stream_completion r) tr =
  (Ok (take fuel (norm_start KCompletion
                    ++ events_of KCompletion (norm_init KCompletion) chunks)%list),
   if (fuel <=? length (norm_start KCompletion))%nat then tr
   else (tr ++ [Call client completion_create params])%list).
Proof.
  intros Hp Hc Hs.
  exact (stream_delivers (Completion r) params client chunks fuel tr Hp Hc Hs).
Qed.

(** X15: iterating a streaming chat completion makes one call, on
    [chat.completions.acreate] when the payload has [messages] and on
    [completion.create] otherwise, in the step that follows the start events
    of the normaliser, and, when the handle returned can be iterated and
    delivers its chunks, yields the start events and then the events the
    normaliser emits for the chunks, in order and none dropped. *)
Theorem stream_chat_events (r : ChatCompletionRequest) (params : dict)
    (client : Fireworks) (chunks : list Raw) (fuel : nat) (tr : list Event) :
  let ep := if contains params "messages"
            then chat_completions_acreate else completion_create in
  _get_params (Chat r) = Ok params ->
  _get_client self = Ok client ->
  provider_stream ep client params = Ok (Iterable (map Ok chunks)) ->
  collect fuel self (_stream_chat_completion r) tr =
  (Ok (take fuel (norm_start KChat ++ events_of KChat (norm_init KChat) chunks)%list),
   if (fuel <=? length (norm_start KChat))%nat then tr
   else (tr ++ [Call client ep params])%list).
Proof.
  intros ep Hp Hc Hs.
  exact (stream_delivers (Chat r) params client chunks fuel tr Hp Hc Hs).
Qed.

(** X16: when the provider refuses to open the stream, the generator of
    either kind yields the start events of the normaliser and the step that
    follows them raises the provider's error unchanged, after the one call
    that was attempted. *)
Theorem stream_open_failure (request : Request) (params : dict)
    (client : Fireworks) (e : exn) (fuel : nat) (tr : list Event) :
  let k := kind_of request in
  _get_params request = Ok params ->
  _get_client self = Ok client ->
  provider_stream (stream_endpoint k params) client params = Raise e ->
  collect fuel self (stream_of_request request) tr =
  (if (fuel <=? length (norm_start k))%nat
   then Ok (take fuel (norm_start k)) else Raise e,
   if (fuel <=? length (norm_start k))%nat then tr
   else (tr ++ [Call client (stream_endpoint k params) params])%list).
Proof.
  intros k Hp Hc Hs. rewrite (collect_stream self fuel request params tr Hp).
  fold k. rewrite (opening_calls self k params client Hc).
  rewrite (opening_refused self k params client e Hc Hs).
  unfold iteration. simpl. rewrite !app_nil_r. reflexivity.
Qed.

(** X17: when the streaming call hands back an object that a synchronous
    [for] cannot iterate, such as the async generator of an awaited call,
    the generator yields the start events of the normaliser and the step
    that follows them raises a [TypeError], after the one call. *)
Theorem stream_not_iterable (request : Request) (params : dict)
    (client : Fireworks) (fuel : nat) (tr : list Event) :
  let k := kind_of request in
  _get_params request = Ok params ->
  _get_client self = Ok client ->
  provider_stream (stream_endpoint k params) client params = Ok NotIterable ->
  collect fuel self (stream_of_request request) tr =
  (if (fuel <=? length (norm_start k))%nat
   then Ok (take fuel (norm_start k))
   else Raise (TypeError "object is not iterable"),
   if (fuel <=? length (norm_start k))%nat then tr
   else (tr ++ [Call client (stream_endpoint k params) params])%list).
Proof.
  intros k Hp Hc Hs. rewrite (collect_stream self fuel request params tr Hp).
  fold k. rewrite (opening_calls self k params client Hc).
  rewrite (opening_not_iterable self k params client Hc Hs).
  unfold iteration. simpl. rewrite !app_nil_r. reflexivity.
Qed.

End DispatcherExtras.

(** * The further properties at concrete inputs *)

Section ExtraWitnesses.
Import Reference.

Lemma build_options_passthrough_witness :
  let sp := Some {| temperature := Some (Qmake 7 10); top_p := None;
                    max_tokens := Some 64%Z |} in
  let fmt := Some (GrammarResponseFormat (VStr "root ::= 'a'")) in
  let options : dict :=
    {[ "temperature" := VFloat (Qmake 7 10); "max_tokens" := VInt 64;
       "response_format" :=
         VDict {[ "type" := VStr "grammar"; "grammar" := VStr "root ::= 'a'" ]} ]} in
  _build_options sp fmt = Ok options /\
  get_sampling_options sp !! "temperature" = Some (VFloat (Qmake 7 10)) /\
  options !! "temperature" = Some (VFloat (Qmake 7 10)).
Proof.
  intros sp fmt options.
  assert (Hb : _build_options sp fmt = Ok options) by (vm_compute; reflexivity).
  assert (Hv : get_sampling_options sp !! "temperature" = Some (VFloat (Qmake 7 10)))
    by (vm_compute; reflexivity).
  refine (conj Hb (conj Hv _)).
  apply (@build_options_passthrough types collaborators sp fmt options "temperature" _ Hb Hv).
  discriminate.
Defined.

Lemma build_options_keys_witness :
  let sp := Some {| temperature := Some (Qmake 7 10); top_p := None;
                    max_tokens := None |} in
  let fmt := Some (JsonSchemaResponseFormat (VDict ∅)) in
  let options : dict :=
    {[ "temperature" := VFloat (Qmake 7 10); "max_tokens" := VInt 512;
       "response_format" :=
         VDict {[ "type" := VStr "json_object"; "schema" := VDict ∅ ]} ]} in
  _build_options sp fmt = Ok options /\
  (is_Some (options !! "top_p") <->
   is_Some (get_sampling_options sp !! "top_p") \/ "top_p" = "max_tokens" \/
   ("top_p" = "response_format" /\ fmt <> None)) /\
  (is_Some (options !! "response_format") <->
   is_Some (get_sampling_options sp !! "response_format") \/
   "response_format" = "max_tokens" \/
   ("response_format" = "response_format" /\ fmt <> None)).
Proof.
  intros sp fmt options.
  assert (Hb : _build_options sp fmt = Ok options) by (vm_compute; reflexivity).
  exact (conj Hb
           (conj (@build_options_keys types collaborators sp fmt options "top_p" Hb)
                 (@build_options_keys types collaborators sp fmt options
                    "response_format" Hb))).
Defined.

Lemma payload_keys_witness :
  let payload := hello_payload "fireworks/llama-v3p1-8b-instruct" in
  _get_params (Completion hello) = Ok payload /\
  exists options,
    _build_options (Some spec_default) None = Ok options /\
    forall k, is_Some (payload !! k) <->
      k = "model" \/ k = "stream" \/ k = "prompt" \/ is_Some (options !! k).
Proof.
  intros payload.
  exact (conj hello_params (payload_keys (Completion hello) payload hello_params)).
Defined.

Lemma payload_options_win_witness :
  let payload := hello_payload "fireworks/llama-v3p1-8b-instruct" in
  let options : dict := {[ "max_tokens" := VInt 512 ]} in
  _get_params (Completion hello) = Ok payload /\
  _build_options (Some spec_default) None = Ok options /\
  options !! "max_tokens" = Some (VInt 512) /\
  payload !! "max_tokens" = Some (VInt 512).
Proof.
  intros payload options.
  assert (Ho : _build_options (Some spec_default) None = Ok options)
    by (vm_compute; reflexivity).
  assert (Hv : options !! "max_tokens" = Some (VInt 512)) by reflexivity.
  exact (conj hello_params (conj Ho (conj Hv
           (payload_options_win (Completion hello) payload options "max_tokens" _
              hello_params Ho Hv)))).
Defined.

Lemma payload_max_tokens_witness :
  let payload := hello_payload "fireworks/llama-v3p1-8b-instruct" in
  _get_params (Completion hello) = Ok payload /\
  exists v, payload !! "max_tokens" = Some v /\
    (spec_get_sampling_options (Some spec_default) !! "max_tokens" = None ->
       v = VInt 512) /\
    (forall w, spec_get_sampling_options (Some spec_default) !! "max_tokens" = Some w ->
       v = w).
Proof.
  intros payload.
  exact (conj hello_params (payload_max_tokens (Completion hello) payload hello_params)).
Defined.

Lemma payload_model_stream_witness :
  let payload := hello_payload "fireworks/llama-v3p1-8b-instruct" in
  sampling_options_only /\
  _get_params (Completion hello) = Ok payload /\
  payload !! "model" = Some (VStr "fireworks/llama-v3p1-8b-instruct") /\
  payload !! "stream" = Some (VBool false).
Proof.
  intros payload.
  exact (conj reference_sampling_options_only (conj hello_params
           (payload_model_stream (Completion hello) payload
              reference_sampling_options_only hello_params))).
Defined.

Lemma payload_messages_in_order_witness :
  let request := chat_of [text_message; image_message] false in
  let payload : dict :=
    match _get_params (Chat request) with Ok p => p | Raise _ => ∅ end in
  let ms := [ VDict {[ "role" := VStr "user";
                       "content" := VList [item_dict (TextItem "Hi")] ]};
              VDict {[ "role" := VStr "user";
                       "content" := VList [item_dict (TextItem "What is this?");
                                           item_dict (ImageMedia "http://example.org/cat.png")] ]} ] in
  sampling_options_only /\
  _get_params (Chat request) = Ok payload /\
  payload !! "messages" = Some (VList ms) /\
  Forall2 (fun m v => spec_convert_message_to_dict m = Ok v) (messages request) ms.
Proof.
  intros request payload ms.
  assert (Hp : _get_params (Chat request) = Ok payload) by (vm_compute; reflexivity).
  assert (Hms : payload !! "messages" = Some (VList ms)) by (vm_compute; reflexivity).
  exact (conj reference_sampling_options_only (conj Hp (conj Hms
           (payload_messages_in_order request payload ms
              reference_sampling_options_only Hp Hms)))).
Defined.

Lemma first_failing_message_raises_witness :
  let request := chat_of [text_message; image_message; text_message] false in
  let e := ExternalError "cannot fetch the media of a user message" in
  request_has_media (Chat request) = true /\
  result_mapM Offline.convert_without_media (messages request) = Raise e /\
  @_get_params types Offline.collaborators (Chat request) = Raise e.
Proof.
  intros request e.
  assert (Hm : request_has_media (Chat request) = true) by reflexivity.
  assert (HM : result_mapM Offline.convert_without_media (messages request) = Raise e)
    by reflexivity.
  exact (conj Hm (conj HM
           (proj1 (@first_failing_message_raises types Offline.collaborators
                     request e Hm HM)))).
Defined.

Lemma unknown_model_raises_at_once_witness :
  let e := ValueError "Model gpt not found" in
  spec_get_model "gpt" = Raise e /\
  completion adapter_with_key "gpt" (Single (TextItem "Hello")) None None
             (Some true) None [] = (Raise e, []) /\
  chat_completion adapter_with_key "gpt" [text_message] None None None None None
                  (Some true) None [] = (Raise e, []).
Proof.
  intros e.
  assert (Hm : model_store_get_model "gpt" = Raise e) by reflexivity.
  exact (conj Hm
           (unknown_model_raises_at_once adapter_with_key "gpt" e
              (Single (TextItem "Hello")) [text_message] None None None None None
              (Some true) None [] Hm)).
Defined.

Lemma stream_fails_midway_witness :
  let payload := hello_payload "fireworks/llama-v3p1-8b-instruct" in
  let client := {| client_api_key := "header-key" |} in
  let e := ExternalError "connection reset" in
  @_get_params types Offline.collaborators (Completion hello) = Ok payload /\
  _get_client adapter_with_header = Ok client /\
  @collect types Offline.collaborators 1 adapter_with_header
    (_stream_completion hello) []
  = (Ok ["chunk 1"], [Call client completion_create payload]) /\
  @collect types Offline.collaborators 2 adapter_with_header
    (_stream_completion hello) []
  = (Raise e, [Call client completion_create payload]).
Proof.
  intros payload client e.
  assert (Hp : @_get_params types Offline.collaborators (Completion hello) = Ok payload)
    by (vm_compute; reflexivity).
  assert (Hc : _get_client adapter_with_header = Ok client) by reflexivity.
  exact (conj Hp (conj Hc (conj
           (@stream_fails_midway types Offline.collaborators adapter_with_header
              (Completion hello) payload client ["chunk 1"] e [] 1 [] Hp Hc eq_refl)
           (@stream_fails_midway types Offline.collaborators adapter_with_header
              (Completion hello) payload client ["chunk 1"] e [] 2 [] Hp Hc eq_refl)))).
Defined.

Lemma stream_completion_events_witness :
  let payload : dict :=
    <["top_p" := VFloat (Qmake 19 20)]> (hello_payload "fireworks/llama-v3p1-8b-instruct") in
  let client := {| client_api_key := "static-key" |} in
  @_get_params Upstream.types Upstream.collaborators (Completion Upstream.hello)
  = Ok payload /\
  _get_client adapter_with_key = Ok client /\
  @collect Upstream.types Upstream.collaborators 1 adapter_with_key
    (_stream_completion Upstream.hello) []
  = (Ok ["chunk 1"], [Call client completion_create payload]) /\
  @collect Upstream.types Upstream.collaborators 5 adapter_with_key
    (_stream_completion Upstream.hello) []
  = (Ok ["chunk 1"; "chunk 2"; "final"], [Call client completion_create payload]).
Proof.
  intros payload client.
  assert (Hp : @_get_params Upstream.types Upstream.collaborators
                 (Completion Upstream.hello) = Ok payload)
    by (vm_compute; reflexivity).
  assert (Hc : _get_client adapter_with_key = Ok client) by reflexivity.
  exact (conj Hp (conj Hc (conj
           (@stream_completion_events Upstream.types Upstream.collaborators
              adapter_with_key Upstream.hello payload client ["chunk 1"; "chunk 2"]
              1 [] Hp Hc eq_refl)
           (@stream_completion_events Upstream.types Upstream.collaborators
              adapter_with_key Upstream.hello payload client ["chunk 1"; "chunk 2"]
              5 [] Hp Hc eq_refl)))).
Defined.

Lemma stream_chat_events_witness :
  let request := Upstream.chat_of [text_message] true in
  let payload : dict :=
    {[ "model" := VStr "fireworks/llama-v3p2-11b-vision-instruct";
       "prompt" := VStr "<user>Hi"; "stream" := VBool true;
       "max_tokens" := VInt 512; "top_p" := VFloat (Qmake 19 20) ]} in
  let client := {| client_api_key := "header-key" |} in
  @_get_params Upstream.types Upstream.collaborators (Chat request) = Ok payload /\
  _get_client adapter_with_header = Ok client /\
  @collect Upstream.types Upstream.collaborators 1 adapter_with_header
    (_stream_chat_completion request) [] = (Ok ["start"], []) /\
  @collect Upstream.types Upstream.collaborators 9 adapter_with_header
    (_stream_chat_completion request) []
  = (Ok ["start"; "chunk 1"; "chunk 2"; "complete"],
     [Call client completion_create payload]).
Proof.
  intros request payload client.
  assert (Hp : @_get_params Upstream.types Upstream.collaborators (Chat request)
               = Ok payload) by (vm_compute; reflexivity).
  assert (Hc : _get_client adapter_with_header = Ok client) by reflexivity.
  assert (Hk : contains payload "messages" = false) by (vm_compute; reflexivity).
  refine (conj Hp (conj Hc _)).
  generalize (@stream_chat_events Upstream.types Upstream.collaborators
                adapter_with_header request payload client ["chunk 1"; "chunk 2"]).
  rewrite Hk. intros Hs.
  exact (conj (Hs 1 [] Hp Hc eq_refl) (Hs 9 [] Hp Hc eq_refl)).
Defined.

Lemma stream_open_failure_witness :
  let request := chat_of [text_message] true in
  let payload : dict :=
    {[ "model" := VStr "fireworks/llama-v3p2-11b-vision-instruct";
       "prompt" := VStr "<user>Hi"; "stream" := VBool true;
       "max_tokens" := VInt 512 ]} in
  let client := {| client_api_key := "static-key" |} in
  let e := ExternalError "503" in
  @_get_params types Offline.collaborators (Chat request) = Ok payload /\
  _get_client adapter_with_key = Ok client /\
  @collect types Offline.collaborators 1 adapter_with_key
    (_stream_chat_completion request) [] = (Ok ["start"], []) /\
  @collect types Offline.collaborators 2 adapter_with_key
    (_stream_chat_completion request) []
  = (Raise e, [Call client completion_create payload]).
Proof.
  intros request payload client e.
  assert (Hp : @_get_params types Offline.collaborators (Chat request) = Ok payload)
    by (vm_compute; reflexivity).
  assert (Hc : _get_client adapter_with_key = Ok client) by reflexivity.
  assert (Hk : contains payload "messages" = false) by (vm_compute; reflexivity).
  refine (conj Hp (conj Hc _)).
  generalize (@stream_open_failure types Offline.collaborators adapter_with_key
                (Chat request) payload client e).
  simpl. rewrite Hk. intros Hs.
  exact (conj (Hs 1 [] Hp Hc eq_refl) (Hs 2 [] Hp Hc eq_refl)).
Defined.

Lemma stream_not_iterable_witness :
  let request := Upstream.chat_of [image_message] true in
  let payload : dict :=
    match @_get_params Upstream.types Upstream.collaborators (Chat request) with
    | Ok p => p
    | Raise _ => ∅
    end in
  let client := {| client_api_key := "header-key" |} in
  @_get_params Upstream.types Upstream.collaborators (Chat request) = Ok payload /\
  _get_client adapter_with_header = Ok client /\
  contains payload "messages" = true /\
  @collect Upstream.types Upstream.collaborators 1 adapter_with_header
    (_stream_chat_completion request) [] = (Ok ["start"], []) /\
  @collect Upstream.types Upstream.collaborators 2 adapter_with_header
    (_stream_chat_completion request) []
  = (Raise (TypeError "object is not iterable"),
     [Call client chat_completions_acreate payload]).
Proof.
  intros request payload client.
  assert (Hp : @_get_params Upstream.types Upstream.collaborators (Chat request)
               = Ok payload) by (vm_compute; reflexivity).
  assert (Hc : _get_client adapter_with_header = Ok client) by reflexivity.
  assert (Hk : contains payload "messages" = true) by (vm_compute; reflexivity).
  refine (conj Hp (conj Hc (conj Hk _))).
  generalize (@stream_not_iterable Upstream.types Upstream.collaborators
                adapter_with_header (Chat request) payload client).
  simpl. rewrite Hk. intros Hs.
  exact (conj (Hs 1 [] Hp Hc eq_refl) (Hs 2 [] Hp Hc eq_refl)).
Defined.

Example empty_chat_raises :
  @_get_params Upstream.types Upstream.collaborators (Chat (Upstream.chat_of [] false))
  = Raise (ExternalError "list index out of range").
Proof. reflexivity. Qed.

Example offline_completion_propagates :
  @_nonstream_completion types Offline.collaborators adapter_with_key hello []
  = (Raise (ExternalError "503"),
     [Call {| client_api_key := "static-key" |} completion_acreate
        (hello_payload "fireworks/llama-v3p1-8b-instruct")]).
Proof. vm_compute. reflexivity. Qed.

End ExtraWitnesses.
